(** * SIPPhone: the browser client of the WebRTC/SIP gateway

    A shallow embedding of [browser_client/sip-phone.js] (class [SIPPhone])
    and the properties of its connection, dispatch and call/registration
    logic.

    The phone is one JavaScript object that reacts to browser callbacks:
    websocket events, timers and user commands.  The embedding keeps the
    object's fields, the part of the page (DOM) that the methods read and
    write, and the browser resources they use (sockets, timers,
    localStorage, console) as one [World]; every method is a function on
    worlds, and a method in which an exception can escape runs in a small
    state-and-exception monad, so that what was written before the throw
    stays written.

    Not embedded: [changeLogLevel] and [clearLogs] (HTTP requests to the
    REST service), [loadSettings] and [loadLogsFromStorage] (start-up reads:
    the page and the store the constructor starts from are parameters), and
    the audio graph built at every ringtone pulse. *)

From Stdlib Require Import ZArith List String Ascii Bool Lia DecimalString.
From stdpp Require Import base list.
Import ListNotations.
Local Open Scope string_scope.
Local Open Scope list_scope.
Local Open Scope Z_scope.
Set Warnings "-register-all".

(** ** JavaScript values *)

(** What [JSON.parse] can return, and [undefined].  Numbers are kept as
    integers: the code only tests them for truthiness and passes them on. *)
Inductive jsval : Type :=
| Undefined
| JNull
| JBool (b : bool)
| JNum (n : Z)
| JStr (s : string)
| JArr (l : list jsval)
| JObj (l : list (string * jsval)).

(** ToBoolean. *)
Definition truthy (v : jsval) : bool :=
  match v with
  | Undefined | JNull => false
  | JBool b => b
  | JNum n => negb (n =? 0)
  | JStr s => negb (s =? "")%string
  | JArr _ | JObj _ => true
  end.

Inductive exn : Type :=
| TypeError          (* property read on null or undefined *)
| SyntaxError        (* JSON.parse *)
| SecurityError      (* new WebSocket *)
| QuotaExceededError (* localStorage.setItem *)
| AudioError.        (* new AudioContext *)

Inductive Result (A : Type) : Type :=
| Ok (a : A)
| Throw (e : exn).
Arguments Ok {A} a.
Arguments Throw {A} e.

Fixpoint assoc (k : string) (l : list (string * jsval)) : jsval :=
  match l with
  | [] => Undefined
  | (k', v) :: r => if (k' =? k)%string then v else assoc k r
  end.

(** [v.k] for the property names of the wire protocol: a TypeError on
    [null] and [undefined], the member of an object, [undefined] on any
    other value. *)
Definition get_prop (v : jsval) (k : string) : Result jsval :=
  match v with
  | Undefined | JNull => Throw TypeError
  | JObj l => Ok (assoc k l)
  | _ => Ok Undefined
  end.

(** [a || b] *)
Definition js_or (a b : jsval) : jsval := if truthy a then a else b.

(** ** Built-in string functions the methods call *)

(** A string is held as its UTF-8 text.  The white space that [trim] and
    [parseInt] skip, each character by its bytes: TAB, LF, VT, FF, CR and
    the space; U+00A0; U+1680; U+2000 to U+200A; U+2028 and U+2029;
    U+202F; U+205F; U+3000; U+FEFF. *)
Definition white_space : list (list nat) :=
  [[9]; [10]; [11]; [12]; [13]; [32];
   [194; 160];
   [225; 154; 128];
   [226; 128; 128]; [226; 128; 129]; [226; 128; 130]; [226; 128; 131];
   [226; 128; 132]; [226; 128; 133]; [226; 128; 134]; [226; 128; 135];
   [226; 128; 136]; [226; 128; 137]; [226; 128; 138];
   [226; 128; 168]; [226; 128; 169];
   [226; 128; 175];
   [226; 129; 159];
   [227; 128; 128];
   [239; 187; 191]]%nat.

(** [Some r]: the string is the bytes [p] followed by [r]. *)
Fixpoint strip_prefix (p : list nat) (s : string) : option string :=
  match p with
  | [] => Some s
  | n :: p' =>
      match s with
      | String c r => if (nat_of_ascii c =? n)%nat then strip_prefix p' r else None
      | EmptyString => None
      end
  end.

Fixpoint strip_any (ps : list (list nat)) (s : string) : option string :=
  match ps with
  | [] => None
  | p :: ps' =>
      match strip_prefix p s with
      | Some r => Some r
      | None => strip_any ps' s
      end
  end.

(** Drop the leading characters that are among [ps]; [fuel] bounds their
    number. *)
Fixpoint trim_with (ps : list (list nat)) (fuel : nat) (s : string) : string :=
  match fuel with
  | O => s
  | S k =>
      match strip_any ps s with
      | Some r => trim_with ps k r
      | None => s
      end
  end.

Definition trim_start (s : string) : string :=
  trim_with white_space (String.length s) s.

Fixpoint rev_string (acc s : string) : string :=
  match s with
  | String c r => rev_string (String c acc) r
  | EmptyString => acc
  end.

(** From the end: the same on the reversed text, each character's bytes
    reversed. *)
Definition trim_end (s : string) : string :=
  rev_string ""
    (trim_with (List.map (@List.rev nat) white_space) (String.length s)
       (rev_string "" s)).

(** [String.prototype.trim] *)
Definition trim (s : string) : string := trim_end (trim_start s).

Definition digit_of (radix : Z) (c : ascii) : option Z :=
  let n := Z.of_nat (nat_of_ascii c) in
  let d := if ((48 <=? n) && (n <=? 57))%Z then Some (n - 48)
           else if ((97 <=? n) && (n <=? 122))%Z then Some (n - 87)
           else if ((65 <=? n) && (n <=? 90))%Z then Some (n - 55)
           else None in
  match d with
  | Some k => if (k <? radix)%Z then Some k else None
  | None => None
  end.

Fixpoint digits (radix : Z) (acc : option Z) (s : string) : option Z :=
  match s with
  | String c r =>
      match digit_of radix c with
      | Some d => digits radix (Some (match acc with Some a => a * radix + d | None => d end)) r
      | None => acc
      end
  | EmptyString => acc
  end.

(** [parseInt(s)] without a radix: [None] is NaN.  The result is the exact
    integer; JavaScript rounds one that is longer than 53 bits. *)
Definition parseInt (s : string) : option Z :=
  let s1 := trim_start s in
  let '(sign, s2) :=
    match s1 with
    | String "-" r => (-1, r)
    | String "+" r => (1, r)
    | _ => (1, s1)
    end in
  let '(radix, s3) :=
    match s2 with
    | String "0" (String "x" r) | String "0" (String "X" r) => (16, r)
    | _ => (10, s2)
    end in
  match digits radix None s3 with
  | Some n => Some (sign * n)
  | None => None
  end.

Definition string_of_Z (z : Z) : string := NilZero.string_of_int (Z.to_int z).

Fixpoint replicate_char (n : nat) (c : ascii) : string :=
  match n with
  | O => ""
  | S k => String c (replicate_char k c)
  end.

(** [s.padStart(n, c)] for a one-character pad. *)
Definition padStart (n : nat) (c : ascii) (s : string) : string :=
  (replicate_char (n - String.length s) c ++ s)%string.

(** ** The wire protocol and the log *)

(** The object [getSIPSettings] builds; [saveSettings] adds [log_level]. *)
Record Settings : Type := mkSettings {
  sip_server : string;
  sip_port : Z;
  login : string;
  password : string;
  number : string;
  log_level : option string
}.

(** The messages the client sends: [{type, payload}]. *)
Inductive Command : Type :=
| get_status
| sip_register (settings : Settings)
| sip_unregister
| sip_make_call (number : string)
| sip_answer_call
| sip_hangup_call
| sip_send_dtmf (digit : jsval)
| sip_send_message (to_number content : jsval).

Inductive Level : Type := info | warning | error | debug.

(** The texts passed to [log], with the values interpolated into them. *)
Inductive LogMsg : Type :=
| MsgInitialized                 (* "SIP phone initialized" *)
| MsgWsConnected                 (* "WebSocket connected" *)
| MsgWsClosed                    (* "WebSocket disconnected" *)
| MsgWsError                     (* "WebSocket error: ..." *)
| MsgWsConnectFailed (e : exn)   (* "WebSocket connection error: ..." *)
| MsgReceived (type : jsval)     (* "Received: <type>" *)
| MsgUnknownType (type : jsval)  (* "Unknown message type: <type>" *)
| MsgSuccess (message : jsval)   (* "Success: <message>" *)
| MsgError (message : jsval)     (* "Error: <message>" *)
| MsgHandlingFailed (e : exn)    (* "Message handling error: <error>" *)
| MsgRegistered                  (* "Registered at the SIP server" *)
| MsgUnregistered                (* "SIP registration dropped" *)
| MsgRinging                     (* "The callee is ringing" *)
| MsgCallEstablished             (* "Call established" *)
| MsgCallEnded                   (* "Call ended" *)
| MsgCallFailed (reason : jsval) (* "Call error: <reason>" *)
| MsgWsNotConnected              (* "WebSocket is not connected" *)
| MsgFillSettings                (* "Fill in all SIP settings" *)
| MsgRegisterSent                (* "SIP registration request sent" *)
| MsgUnregisterSent              (* "SIP unregistration request sent" *)
| MsgEnterNumber                 (* "Enter a number to call" *)
| MsgDialing (number : string)   (* "Dialing: <number>" *)
| MsgAnswering                   (* "Answering the incoming call" *)
| MsgHangupSent                  (* "Hang-up signal sent" *)
| MsgDtmfSent (digit : jsval)    (* "DTMF sent: <digit>" *)
| MsgNoActiveCall                (* "No active call to send DTMF to" *)
| MsgNotRegistered               (* "Not registered, cannot send messages" *)
| MsgSendingMessage (to : jsval) (* "Sending a message to: <number>" *)
| MsgSettingsSaved               (* "Settings saved" *)
| MsgStopped.                    (* "SIP phone stopped" *)

Record LogEntry : Type := mkLogEntry {
  timestamp : Z;
  message : LogMsg;
  level : Level
}.

(** ** The phone object, the page and the browser *)

(** The data fields the constructor and the methods assign.  [callTimer]
    and [ringtoneInterval] hold interval handles; [None] is a falsy handle
    ([null], or [undefined] for [ringtoneInterval] before its first use). *)
Record Phone : Type := mkPhone {
  websocket : option nat;
  isConnected : bool;
  isRegistered : jsval;
  isInCall : jsval;
  hasIncomingCall : jsval;
  callStartTime : option Z;
  callTimer : option nat;
  currentCaller : jsval;
  currentCallState : string;
  ringtoneInterval : option nat
}.

(** [callStatus.textContent] takes one of five texts. *)
Inductive StatusText : Type :=
| NoText            (* '' *)
| TextIncoming      (* "Incoming call..." *)
| TextConnecting    (* "Setting up the connection..." *)
| TextTalking       (* "Talking..." *)
| TextRinging.      (* "The callee is ringing..." *)

(** The elements [initializeElements] looks up, each with the properties
    the methods use.  A [textContent] that is assigned a value keeps the
    value as assigned (the conversion to text is left to the page). *)
Record Dom : Type := mkDom {
  connectionStatus : bool;       (* "connected" / "disconnected" *)
  sipStatus : bool;              (* "registered" / "unregistered" *)
  callInfo_display : bool;       (* style.display: 'block' / 'none' *)
  callInfo_incoming : bool;      (* className 'call-info incoming' / 'call-info' *)
  remoteNumber : jsval;          (* textContent *)
  callDuration : string;         (* textContent *)
  callStatus : StatusText;       (* textContent *)
  answerBtn_disabled : bool;
  hangupBtn_disabled : bool;
  dialBtn_disabled : bool;
  registerBtn_disabled : bool;
  unregisterBtn_disabled : bool;
  phoneNumber_disabled : bool;
  phoneNumber_value : string;
  sipServer_value : string;
  sipPort_value : string;
  sipLogin_value : string;
  sipPassword_value : string;
  sipNumber_value : string;
  logLevelSelect_value : string;
  logContainer : list LogEntry   (* children, oldest first *)
}.

Inductive ReadyState : Type := CONNECTING | OPEN | CLOSING | CLOSED.

Inductive TimerKind : Type :=
| ReconnectTimeout   (* setTimeout(() => this.connectWebSocket(), 5000) *)
| RingtonePulse      (* setInterval(..., 2000) of playRingtone *)
| CallTick.          (* setInterval(..., 1000) of startCallTimer *)

Inductive ConsoleMsg : Type :=
| ConsoleRingtoneFailed (e : exn)
| ConsoleLogSaveFailed (e : exn).

(** What the page's browser holds for the phone: the sockets it created
    (a socket's handle is its index), the frames sent, the timers still
    scheduled, the two localStorage keys and the console.  The key
    'sip_settings' is kept with its history: every [setItem] appends, the
    stored value is the last one. *)
Record Browser : Type := mkBrowser {
  sockets : list ReadyState;
  sent : list (nat * Command);
  timers : list (nat * TimerKind);
  next_timer : nat;
  sip_settings : list Settings;
  sip_phone_logs : list LogEntry;
  console : list ConsoleMsg
}.

Record World : Type := mkWorld {
  phone : Phone;
  dom : Dom;
  browser : Browser
}.

(** What a callback cannot decide: the clock, and whether the browser
    lets it open a socket, build an audio context, or store one more item. *)
Record Env : Type := mkEnv {
  now : Z;
  websocket_ok : bool;
  audio_ok : bool;
  settings_quota_ok : bool;
  logs_quota_ok : bool
}.

(** ** Assignments

    One function per assigned field: [set_f v x] is [x] after [x.f = v]. *)

Definition set_websocket (v : option nat) (x : Phone) : Phone :=
  mkPhone v (isConnected x) (isRegistered x) (isInCall x) (hasIncomingCall x) (callStartTime x) (callTimer x) (currentCaller x) (currentCallState x) (ringtoneInterval x).

Definition set_isConnected (v : bool) (x : Phone) : Phone :=
  mkPhone (websocket x) v (isRegistered x) (isInCall x) (hasIncomingCall x) (callStartTime x) (callTimer x) (currentCaller x) (currentCallState x) (ringtoneInterval x).

Definition set_isRegistered (v : jsval) (x : Phone) : Phone :=
  mkPhone (websocket x) (isConnected x) v (isInCall x) (hasIncomingCall x) (callStartTime x) (callTimer x) (currentCaller x) (currentCallState x) (ringtoneInterval x).

Definition set_isInCall (v : jsval) (x : Phone) : Phone :=
  mkPhone (websocket x) (isConnected x) (isRegistered x) v (hasIncomingCall x) (callStartTime x) (callTimer x) (currentCaller x) (currentCallState x) (ringtoneInterval x).

Definition set_hasIncomingCall (v : jsval) (x : Phone) : Phone :=
  mkPhone (websocket x) (isConnected x) (isRegistered x) (isInCall x) v (callStartTime x) (callTimer x) (currentCaller x) (currentCallState x) (ringtoneInterval x).

Definition set_callStartTime (v : option Z) (x : Phone) : Phone :=
  mkPhone (websocket x) (isConnected x) (isRegistered x) (isInCall x) (hasIncomingCall x) v (callTimer x) (currentCaller x) (currentCallState x) (ringtoneInterval x).

Definition set_callTimer (v : option nat) (x : Phone) : Phone :=
  mkPhone (websocket x) (isConnected x) (isRegistered x) (isInCall x) (hasIncomingCall x) (callStartTime x) v (currentCaller x) (currentCallState x) (ringtoneInterval x).

Definition set_currentCaller (v : jsval) (x : Phone) : Phone :=
  mkPhone (websocket x) (isConnected x) (isRegistered x) (isInCall x) (hasIncomingCall x) (callStartTime x) (callTimer x) v (currentCallState x) (ringtoneInterval x).

Definition set_ringtoneInterval (v : option nat) (x : Phone) : Phone :=
  mkPhone (websocket x) (isConnected x) (isRegistered x) (isInCall x) (hasIncomingCall x) (callStartTime x) (callTimer x) (currentCaller x) (currentCallState x) v.

Definition set_connectionStatus (v : bool) (x : Dom) : Dom :=
  mkDom v (sipStatus x) (callInfo_display x) (callInfo_incoming x) (remoteNumber x) (callDuration x) (callStatus x) (answerBtn_disabled x) (hangupBtn_disabled x) (dialBtn_disabled x) (registerBtn_disabled x) (unregisterBtn_disabled x) (phoneNumber_disabled x) (phoneNumber_value x) (sipServer_value x) (sipPort_value x) (sipLogin_value x) (sipPassword_value x) (sipNumber_value x) (logLevelSelect_value x) (logContainer x).

Definition set_sipStatus (v : bool) (x : Dom) : Dom :=
  mkDom (connectionStatus x) v (callInfo_display x) (callInfo_incoming x) (remoteNumber x) (callDuration x) (callStatus x) (answerBtn_disabled x) (hangupBtn_disabled x) (dialBtn_disabled x) (registerBtn_disabled x) (unregisterBtn_disabled x) (phoneNumber_disabled x) (phoneNumber_value x) (sipServer_value x) (sipPort_value x) (sipLogin_value x) (sipPassword_value x) (sipNumber_value x) (logLevelSelect_value x) (logContainer x).

Definition set_callInfo_display (v : bool) (x : Dom) : Dom :=
  mkDom (connectionStatus x) (sipStatus x) v (callInfo_incoming x) (remoteNumber x) (callDuration x) (callStatus x) (answerBtn_disabled x) (hangupBtn_disabled x) (dialBtn_disabled x) (registerBtn_disabled x) (unregisterBtn_disabled x) (phoneNumber_disabled x) (phoneNumber_value x) (sipServer_value x) (sipPort_value x) (sipLogin_value x) (sipPassword_value x) (sipNumber_value x) (logLevelSelect_value x) (logContainer x).

Definition set_callInfo_incoming (v : bool) (x : Dom) : Dom :=
  mkDom (connectionStatus x) (sipStatus x) (callInfo_display x) v (remoteNumber x) (callDuration x) (callStatus x) (answerBtn_disabled x) (hangupBtn_disabled x) (dialBtn_disabled x) (registerBtn_disabled x) (unregisterBtn_disabled x) (phoneNumber_disabled x) (phoneNumber_value x) (sipServer_value x) (sipPort_value x) (sipLogin_value x) (sipPassword_value x) (sipNumber_value x) (logLevelSelect_value x) (logContainer x).

Definition set_remoteNumber (v : jsval) (x : Dom) : Dom :=
  mkDom (connectionStatus x) (sipStatus x) (callInfo_display x) (callInfo_incoming x) v (callDuration x) (callStatus x) (answerBtn_disabled x) (hangupBtn_disabled x) (dialBtn_disabled x) (registerBtn_disabled x) (unregisterBtn_disabled x) (phoneNumber_disabled x) (phoneNumber_value x) (sipServer_value x) (sipPort_value x) (sipLogin_value x) (sipPassword_value x) (sipNumber_value x) (logLevelSelect_value x) (logContainer x).

Definition set_callDuration (v : string) (x : Dom) : Dom :=
  mkDom (connectionStatus x) (sipStatus x) (callInfo_display x) (callInfo_incoming x) (remoteNumber x) v (callStatus x) (answerBtn_disabled x) (hangupBtn_disabled x) (dialBtn_disabled x) (registerBtn_disabled x) (unregisterBtn_disabled x) (phoneNumber_disabled x) (phoneNumber_value x) (sipServer_value x) (sipPort_value x) (sipLogin_value x) (sipPassword_value x) (sipNumber_value x) (logLevelSelect_value x) (logContainer x).

Definition set_callStatus (v : StatusText) (x : Dom) : Dom :=
  mkDom (connectionStatus x) (sipStatus x) (callInfo_display x) (callInfo_incoming x) (remoteNumber x) (callDuration x) v (answerBtn_disabled x) (hangupBtn_disabled x) (dialBtn_disabled x) (registerBtn_disabled x) (unregisterBtn_disabled x) (phoneNumber_disabled x) (phoneNumber_value x) (sipServer_value x) (sipPort_value x) (sipLogin_value x) (sipPassword_value x) (sipNumber_value x) (logLevelSelect_value x) (logContainer x).

Definition set_answerBtn_disabled (v : bool) (x : Dom) : Dom :=
  mkDom (connectionStatus x) (sipStatus x) (callInfo_display x) (callInfo_incoming x) (remoteNumber x) (callDuration x) (callStatus x) v (hangupBtn_disabled x) (dialBtn_disabled x) (registerBtn_disabled x) (unregisterBtn_disabled x) (phoneNumber_disabled x) (phoneNumber_value x) (sipServer_value x) (sipPort_value x) (sipLogin_value x) (sipPassword_value x) (sipNumber_value x) (logLevelSelect_value x) (logContainer x).

Definition set_hangupBtn_disabled (v : bool) (x : Dom) : Dom :=
  mkDom (connectionStatus x) (sipStatus x) (callInfo_display x) (callInfo_incoming x) (remoteNumber x) (callDuration x) (callStatus x) (answerBtn_disabled x) v (dialBtn_disabled x) (registerBtn_disabled x) (unregisterBtn_disabled x) (phoneNumber_disabled x) (phoneNumber_value x) (sipServer_value x) (sipPort_value x) (sipLogin_value x) (sipPassword_value x) (sipNumber_value x) (logLevelSelect_value x) (logContainer x).

Definition set_dialBtn_disabled (v : bool) (x : Dom) : Dom :=
  mkDom (connectionStatus x) (sipStatus x) (callInfo_display x) (callInfo_incoming x) (remoteNumber x) (callDuration x) (callStatus x) (answerBtn_disabled x) (hangupBtn_disabled x) v (registerBtn_disabled x) (unregisterBtn_disabled x) (phoneNumber_disabled x) (phoneNumber_value x) (sipServer_value x) (sipPort_value x) (sipLogin_value x) (sipPassword_value x) (sipNumber_value x) (logLevelSelect_value x) (logContainer x).

Definition set_registerBtn_disabled (v : bool) (x : Dom) : Dom :=
  mkDom (connectionStatus x) (sipStatus x) (callInfo_display x) (callInfo_incoming x) (remoteNumber x) (callDuration x) (callStatus x) (answerBtn_disabled x) (hangupBtn_disabled x) (dialBtn_disabled x) v (unregisterBtn_disabled x) (phoneNumber_disabled x) (phoneNumber_value x) (sipServer_value x) (sipPort_value x) (sipLogin_value x) (sipPassword_value x) (sipNumber_value x) (logLevelSelect_value x) (logContainer x).

Definition set_unregisterBtn_disabled (v : bool) (x : Dom) : Dom :=
  mkDom (connectionStatus x) (sipStatus x) (callInfo_display x) (callInfo_incoming x) (remoteNumber x) (callDuration x) (callStatus x) (answerBtn_disabled x) (hangupBtn_disabled x) (dialBtn_disabled x) (registerBtn_disabled x) v (phoneNumber_disabled x) (phoneNumber_value x) (sipServer_value x) (sipPort_value x) (sipLogin_value x) (sipPassword_value x) (sipNumber_value x) (logLevelSelect_value x) (logContainer x).

Definition set_phoneNumber_disabled (v : bool) (x : Dom) : Dom :=
  mkDom (connectionStatus x) (sipStatus x) (callInfo_display x) (callInfo_incoming x) (remoteNumber x) (callDuration x) (callStatus x) (answerBtn_disabled x) (hangupBtn_disabled x) (dialBtn_disabled x) (registerBtn_disabled x) (unregisterBtn_disabled x) v (phoneNumber_value x) (sipServer_value x) (sipPort_value x) (sipLogin_value x) (sipPassword_value x) (sipNumber_value x) (logLevelSelect_value x) (logContainer x).

Definition set_phoneNumber_value (v : string) (x : Dom) : Dom :=
  mkDom (connectionStatus x) (sipStatus x) (callInfo_display x) (callInfo_incoming x) (remoteNumber x) (callDuration x) (callStatus x) (answerBtn_disabled x) (hangupBtn_disabled x) (dialBtn_disabled x) (registerBtn_disabled x) (unregisterBtn_disabled x) (phoneNumber_disabled x) v (sipServer_value x) (sipPort_value x) (sipLogin_value x) (sipPassword_value x) (sipNumber_value x) (logLevelSelect_value x) (logContainer x).

Definition set_sipServer_value (v : string) (x : Dom) : Dom :=
  mkDom (connectionStatus x) (sipStatus x) (callInfo_display x) (callInfo_incoming x) (remoteNumber x) (callDuration x) (callStatus x) (answerBtn_disabled x) (hangupBtn_disabled x) (dialBtn_disabled x) (registerBtn_disabled x) (unregisterBtn_disabled x) (phoneNumber_disabled x) (phoneNumber_value x) v (sipPort_value x) (sipLogin_value x) (sipPassword_value x) (sipNumber_value x) (logLevelSelect_value x) (logContainer x).

Definition set_sipPort_value (v : string) (x : Dom) : Dom :=
  mkDom (connectionStatus x) (sipStatus x) (callInfo_display x) (callInfo_incoming x) (remoteNumber x) (callDuration x) (callStatus x) (answerBtn_disabled x) (hangupBtn_disabled x) (dialBtn_disabled x) (registerBtn_disabled x) (unregisterBtn_disabled x) (phoneNumber_disabled x) (phoneNumber_value x) (sipServer_value x) v (sipLogin_value x) (sipPassword_value x) (sipNumber_value x) (logLevelSelect_value x) (logContainer x).

Definition set_sipLogin_value (v : string) (x : Dom) : Dom :=
  mkDom (connectionStatus x) (sipStatus x) (callInfo_display x) (callInfo_incoming x) (remoteNumber x) (callDuration x) (callStatus x) (answerBtn_disabled x) (hangupBtn_disabled x) (dialBtn_disabled x) (registerBtn_disabled x) (unregisterBtn_disabled x) (phoneNumber_disabled x) (phoneNumber_value x) (sipServer_value x) (sipPort_value x) v (sipPassword_value x) (sipNumber_value x) (logLevelSelect_value x) (logContainer x).

Definition set_sipPassword_value (v : string) (x : Dom) : Dom :=
  mkDom (connectionStatus x) (sipStatus x) (callInfo_display x) (callInfo_incoming x) (remoteNumber x) (callDuration x) (callStatus x) (answerBtn_disabled x) (hangupBtn_disabled x) (dialBtn_disabled x) (registerBtn_disabled x) (unregisterBtn_disabled x) (phoneNumber_disabled x) (phoneNumber_value x) (sipServer_value x) (sipPort_value x) (sipLogin_value x) v (sipNumber_value x) (logLevelSelect_value x) (logContainer x).

Definition set_sipNumber_value (v : string) (x : Dom) : Dom :=
  mkDom (connectionStatus x) (sipStatus x) (callInfo_display x) (callInfo_incoming x) (remoteNumber x) (callDuration x) (callStatus x) (answerBtn_disabled x) (hangupBtn_disabled x) (dialBtn_disabled x) (registerBtn_disabled x) (unregisterBtn_disabled x) (phoneNumber_disabled x) (phoneNumber_value x) (sipServer_value x) (sipPort_value x) (sipLogin_value x) (sipPassword_value x) v (logLevelSelect_value x) (logContainer x).

Definition set_logLevelSelect_value (v : string) (x : Dom) : Dom :=
  mkDom (connectionStatus x) (sipStatus x) (callInfo_display x) (callInfo_incoming x) (remoteNumber x) (callDuration x) (callStatus x) (answerBtn_disabled x) (hangupBtn_disabled x) (dialBtn_disabled x) (registerBtn_disabled x) (unregisterBtn_disabled x) (phoneNumber_disabled x) (phoneNumber_value x) (sipServer_value x) (sipPort_value x) (sipLogin_value x) (sipPassword_value x) (sipNumber_value x) v (logContainer x).

Definition set_logContainer (v : list LogEntry) (x : Dom) : Dom :=
  mkDom (connectionStatus x) (sipStatus x) (callInfo_display x) (callInfo_incoming x) (remoteNumber x) (callDuration x) (callStatus x) (answerBtn_disabled x) (hangupBtn_disabled x) (dialBtn_disabled x) (registerBtn_disabled x) (unregisterBtn_disabled x) (phoneNumber_disabled x) (phoneNumber_value x) (sipServer_value x) (sipPort_value x) (sipLogin_value x) (sipPassword_value x) (sipNumber_value x) (logLevelSelect_value x) v.

Definition set_sockets (v : list ReadyState) (x : Browser) : Browser :=
  mkBrowser v (sent x) (timers x) (next_timer x) (sip_settings x) (sip_phone_logs x) (console x).

Definition set_sent (v : list (nat * Command)) (x : Browser) : Browser :=
  mkBrowser (sockets x) v (timers x) (next_timer x) (sip_settings x) (sip_phone_logs x) (console x).

Definition set_timers (v : list (nat * TimerKind)) (x : Browser) : Browser :=
  mkBrowser (sockets x) (sent x) v (next_timer x) (sip_settings x) (sip_phone_logs x) (console x).

Definition set_next_timer (v : nat) (x : Browser) : Browser :=
  mkBrowser (sockets x) (sent x) (timers x) v (sip_settings x) (sip_phone_logs x) (console x).

Definition set_sip_settings (v : list Settings) (x : Browser) : Browser :=
  mkBrowser (sockets x) (sent x) (timers x) (next_timer x) v (sip_phone_logs x) (console x).

Definition set_sip_phone_logs (v : list LogEntry) (x : Browser) : Browser :=
  mkBrowser (sockets x) (sent x) (timers x) (next_timer x) (sip_settings x) v (console x).

Definition set_console (v : list ConsoleMsg) (x : Browser) : Browser :=
  mkBrowser (sockets x) (sent x) (timers x) (next_timer x) (sip_settings x) (sip_phone_logs x) v.

Definition on_phone (f : Phone -> Phone) (w : World) : World :=
  mkWorld (f (phone w)) (dom w) (browser w).

Definition on_dom (f : Dom -> Dom) (w : World) : World :=
  mkWorld (phone w) (f (dom w)) (browser w).

Definition on_browser (f : Browser -> Browser) (w : World) : World :=
  mkWorld (phone w) (dom w) (f (browser w)).

(** ** Statements that can throw *)

(** A computation changes the world and completes or throws; the world it
    leaves is kept either way. *)
Definition M (A : Type) : Type := World -> World * Result A.

#[export] Instance M_ret : MRet M := fun A a w => (w, Ok a).

#[export] Instance M_bind : MBind M := fun A B k m w =>
  match m w with
  | (w1, Ok a) => k a w1
  | (w1, Throw e) => (w1, Throw e)
  end.

Definition throw {A} (e : exn) : M A := fun w => (w, Throw e).

(** A statement that cannot throw. *)
Definition run (f : World -> World) : M unit := fun w => (f w, Ok tt).

(** An expression evaluated for its value. *)
Definition eval {A} (r : Result A) : M A := fun w => (w, r).

(** [try { body } catch (error) { handler(error) }], for a handler that
    does not throw. *)
Definition try_catch (body : M unit) (handler : exn -> World -> World) : World -> World :=
  fun w =>
    match body w with
    | (w1, Ok _) => w1
    | (w1, Throw e) => handler e w1
    end.

(** ** The methods of [SIPPhone] *)

Definition setInterval (k : TimerKind) (b : Browser) : Browser :=
  set_next_timer (S (next_timer b)) (set_timers (timers b ++ [(next_timer b, k)]) b).

(** [clearInterval(id)] and [clearTimeout(id)] *)
Definition clearInterval (id : nat) (b : Browser) : Browser :=
  set_timers (List.filter (fun t => negb (fst t =? id)%nat) (timers b)) b.

Definition readyState (s : nat) (b : Browser) : option ReadyState := sockets b !! s.

Inductive RawMessage : Type :=
| Malformed                (* text that JSON.parse rejects *)
| Parsed (data : jsval).   (* text that JSON.parse turns into [data] *)

Definition JSON_parse (m : RawMessage) : Result jsval :=
  match m with
  | Malformed => Throw SyntaxError
  | Parsed data => Ok data
  end.

(** The cases of the [switch (data.type)] of the dispatcher. *)
Inductive EventType : Type :=
| ev_status_update | ev_sip_registered | ev_sip_unregistered
| ev_incoming_call | ev_call_ringing | ev_call_answered
| ev_call_ended | ev_call_failed | ev_success | ev_error
| ev_default.

Definition event_type (type : jsval) : EventType :=
  match type with
  | JStr s =>
      if (s =? "status_update")%string then ev_status_update
      else if (s =? "sip_registered")%string then ev_sip_registered
      else if (s =? "sip_unregistered")%string then ev_sip_unregistered
      else if (s =? "incoming_call")%string then ev_incoming_call
      else if (s =? "call_ringing")%string then ev_call_ringing
      else if (s =? "call_answered")%string then ev_call_answered
      else if (s =? "call_ended")%string then ev_call_ended
      else if (s =? "call_failed")%string then ev_call_failed
      else if (s =? "success")%string then ev_success
      else if (s =? "error")%string then ev_error
      else ev_default
  | _ => ev_default
  end.

Section Methods.

Variable e : Env.

Definition saveLogToStorage (entry : LogEntry) (b : Browser) : Browser :=
  if logs_quota_ok e then
    let logs := sip_phone_logs b ++ [entry] in
    let logs := if (1000 <? length logs)%nat
                then skipn (length logs - 500) logs else logs in
    set_sip_phone_logs logs b
  else set_console (console b ++ [ConsoleLogSaveFailed QuotaExceededError]) b.

Definition log (m : LogMsg) (lv : Level) (w : World) : World :=
  let entry := mkLogEntry (now e) m lv in
  let w := on_dom (fun d => set_logContainer (logContainer d ++ [entry]) d) w in
  on_browser (saveLogToStorage entry) w.

Definition stopRingtone (w : World) : World :=
  match ringtoneInterval (phone w) with
  | Some id =>
      let w := on_browser (clearInterval id) w in
      on_phone (set_ringtoneInterval None) w
  | None => w
  end.

Definition playRingtone (w : World) : World :=
  if audio_ok e then
    let id := next_timer (browser w) in
    let w := on_browser (setInterval RingtonePulse) w in
    on_phone (set_ringtoneInterval (Some id)) w
  else on_browser (fun b => set_console (console b ++ [ConsoleRingtoneFailed AudioError]) b) w.

Definition startCallTimer (w : World) : World :=
  let w := on_phone (set_callStartTime (Some (now e))) w in
  let id := next_timer (browser w) in
  let w := on_browser (setInterval CallTick) w in
  on_phone (set_callTimer (Some id)) w.

Definition stopCallTimer (w : World) : World :=
  let w := match callTimer (phone w) with
           | Some id =>
               let w := on_browser (clearInterval id) w in
               on_phone (set_callTimer None) w
           | None => w
           end in
  on_dom (set_callDuration "") w.

(** The callback of the call timer. *)
Definition callTick (w : World) : World :=
  let start := match callStartTime (phone w) with Some t => t | None => 0 end in
  let duration := (now e - start) / 1000 in
  let minutes := duration / 60 in
  let seconds := Z.rem duration 60 in
  on_dom (set_callDuration
            (padStart 2 "0" (string_of_Z minutes) ++ ":"
               ++ padStart 2 "0" (string_of_Z seconds))%string) w.

Definition updateConnectionStatus (w : World) : World :=
  on_dom (set_connectionStatus (isConnected (phone w))) w.

Definition updateSIPStatus (w : World) : World :=
  if truthy (isRegistered (phone w)) then
    on_dom (fun d => set_dialBtn_disabled false (set_unregisterBtn_disabled false
                    (set_registerBtn_disabled true (set_sipStatus true d)))) w
  else
    on_dom (fun d => set_dialBtn_disabled true (set_unregisterBtn_disabled true
                    (set_registerBtn_disabled false (set_sipStatus false d)))) w.

Definition updateCallControls (w : World) : World :=
  if truthy (isInCall (phone w)) then
    on_dom (fun d => set_phoneNumber_disabled true (set_dialBtn_disabled true
                    (set_hangupBtn_disabled false (set_answerBtn_disabled true d)))) w
  else if truthy (hasIncomingCall (phone w)) then
    on_dom (fun d => set_phoneNumber_disabled true (set_dialBtn_disabled true
                    (set_hangupBtn_disabled false (set_answerBtn_disabled false d)))) w
  else
    let unregistered := negb (truthy (isRegistered (phone w))) in
    on_dom (fun d => set_phoneNumber_disabled unregistered (set_dialBtn_disabled unregistered
                    (set_hangupBtn_disabled true (set_answerBtn_disabled true d)))) w.

Definition showIncomingCall (callerNumber : jsval) (w : World) : World :=
  let w := on_dom (fun d => set_hangupBtn_disabled false (set_answerBtn_disabled false
                  (set_callStatus TextIncoming (set_remoteNumber callerNumber
                  (set_callInfo_incoming true (set_callInfo_display true d)))))) w in
  playRingtone w.

Definition showOutgoingCall (number : string) (w : World) : World :=
  on_dom (fun d => set_hangupBtn_disabled false (set_answerBtn_disabled true
         (set_callStatus TextConnecting (set_remoteNumber (JStr number)
         (set_callInfo_incoming false (set_callInfo_display true d)))))) w.

Definition updateCallInfo (w : World) : World :=
  if truthy (isInCall (phone w)) then
    on_dom (fun d => set_callStatus TextTalking
           (set_remoteNumber (js_or (currentCaller (phone w)) (JStr (phoneNumber_value d)))
           (set_callInfo_incoming false (set_callInfo_display true d)))) w
  else if truthy (hasIncomingCall (phone w)) then
    showIncomingCall (currentCaller (phone w)) w
  else w.

Definition hideCallInfo (w : World) : World :=
  let w := on_dom (fun d => set_callStatus NoText (set_callDuration ""
                  (set_remoteNumber (JStr "") (set_callInfo_display false d)))) w in
  stopRingtone w.

(** [this.websocket && this.websocket.readyState === WebSocket.OPEN] *)
Definition websocket_open (w : World) : bool :=
  match websocket (phone w) with
  | Some s => match readyState s (browser w) with Some OPEN => true | _ => false end
  | None => false
  end.

Definition sendWebSocketMessage (c : Command) (w : World) : World :=
  match websocket (phone w) with
  | Some s =>
      match readyState s (browser w) with
      | Some OPEN => on_browser (fun b => set_sent (sent b ++ [(s, c)]) b) w
      | _ => log MsgWsNotConnected error w
      end
  | None => log MsgWsNotConnected error w
  end.

Definition requestStatus (w : World) : World :=
  sendWebSocketMessage get_status w.

(** The three handlers [connectWebSocket] installs on the socket it
    creates, and [connectWebSocket] itself. *)
Definition onopen (w : World) : World :=
  let w := log MsgWsConnected info w in
  let w := on_phone (set_isConnected true) w in
  let w := updateConnectionStatus w in
  requestStatus w.

Definition setTimeout_reconnect (w : World) : World :=
  on_browser (setInterval ReconnectTimeout) w.

Definition onclose (w : World) : World :=
  let w := log MsgWsClosed warning w in
  let w := on_phone (set_isConnected false) w in
  let w := updateConnectionStatus w in
  setTimeout_reconnect w.

Definition onerror (w : World) : World :=
  log MsgWsError error w.

Definition new_WebSocket : M nat := fun w =>
  if websocket_ok e
  then (on_browser (fun b => set_sockets (sockets b ++ [CONNECTING]) b) w,
        Ok (length (sockets (browser w))))
  else (w, Throw SecurityError).

Definition connectWebSocket (w : World) : World :=
  try_catch
    (s ← new_WebSocket;
     run (on_phone (set_websocket (Some s))))
    (fun err => log (MsgWsConnectFailed err) error) w.

(** *** Commands *)

Definition getSIPSettings (w : World) : Settings :=
  let d := dom w in
  {| sip_server := trim (sipServer_value d);
     sip_port := match parseInt (sipPort_value d) with
                 | Some n => if n =? 0 then 5060 else n
                 | None => 5060
                 end;
     login := trim (sipLogin_value d);
     password := trim (sipPassword_value d);
     number := trim (sipNumber_value d);
     log_level := None |}.

Definition nonempty (s : string) : bool := negb (s =? "")%string.

Definition validateSIPSettings (settings : Settings) : bool :=
  nonempty (sip_server settings) && negb (sip_port settings =? 0)
  && nonempty (login settings) && nonempty (password settings)
  && nonempty (number settings).

Definition registerSIP (w : World) : World :=
  let settings := getSIPSettings w in
  if negb (validateSIPSettings settings) then
    log MsgFillSettings warning w
  else
    let w := sendWebSocketMessage (sip_register settings) w in
    log MsgRegisterSent info w.

Definition unregisterSIP (w : World) : World :=
  let w := sendWebSocketMessage sip_unregister w in
  log MsgUnregisterSent info w.

Definition makeCall (w : World) : World :=
  let number := trim (phoneNumber_value (dom w)) in
  if negb (nonempty number) then
    log MsgEnterNumber warning w
  else
    let w := sendWebSocketMessage (sip_make_call number) w in
    let w := showOutgoingCall number w in
    log (MsgDialing number) info w.

Definition answerCall (w : World) : World :=
  let w := sendWebSocketMessage sip_answer_call w in
  log MsgAnswering info w.

Definition hangupCall (w : World) : World :=
  let w := sendWebSocketMessage sip_hangup_call w in
  let w := on_phone (set_isInCall (JBool false)) w in
  let w := on_phone (set_hasIncomingCall (JBool false)) w in
  let w := stopRingtone w in
  let w := stopCallTimer w in
  let w := updateCallControls w in
  log MsgHangupSent info w.

Definition sendDTMF (digit : jsval) (w : World) : World :=
  if truthy (isInCall (phone w)) then
    let w := sendWebSocketMessage (sip_send_dtmf digit) w in
    log (MsgDtmfSent digit) info w
  else
    log MsgNoActiveCall warning w.

(** [sendMessage] also returns a boolean: whether the guard let it pass. *)
Definition sendMessage (toNumber content : jsval) (w : World) : World * bool :=
  if negb (truthy (isRegistered (phone w))) then
    (log MsgNotRegistered warning w, false)
  else
    let w := sendWebSocketMessage (sip_send_message toNumber content) w in
    (log (MsgSendingMessage toNumber) info w, true).

(** [settings.log_level = this.logLevelSelect.value] *)
Definition with_log_level (settings : Settings) (v : string) : Settings :=
  {| sip_server := sip_server settings; sip_port := sip_port settings;
     login := login settings; password := password settings;
     number := number settings; log_level := Some v |}.

Definition saveSettings : M unit := fun w =>
  let settings := getSIPSettings w in
  let settings := with_log_level settings (logLevelSelect_value (dom w)) in
  if settings_quota_ok e then
    let w := on_browser (fun b => set_sip_settings (sip_settings b ++ [settings]) b) w in
    (log MsgSettingsSaved info w, Ok tt)
  else (w, Throw QuotaExceededError).

Definition destroy (w : World) : World :=
  let w := match websocket (phone w) with
           | Some s =>
               (* websocket.close() *)
               match readyState s (browser w) with
               | Some CONNECTING | Some OPEN =>
                   on_browser (fun b => set_sockets (<[s := CLOSING]> (sockets b)) b) w
               | _ => w
               end
           | None => w
           end in
  let w := stopCallTimer w in
  let w := stopRingtone w in
  log MsgStopped info w.

(** *** Handlers of inbound events *)

Definition handleStatusUpdate (payload : jsval) : M unit :=
  v ← eval (get_prop payload "sip_registered");
  run (on_phone (set_isRegistered v));;
  v ← eval (get_prop payload "active_call");
  run (on_phone (set_isInCall v));;
  v ← eval (get_prop payload "has_incoming");
  run (on_phone (set_hasIncomingCall v));;
  v ← eval (get_prop payload "caller_number");
  run (on_phone (set_currentCaller v));;
  run updateSIPStatus;;
  run updateCallControls;;
  run updateCallInfo.

Definition handleSIPRegistered (payload : jsval) : M unit :=
  run (on_phone (set_isRegistered (JBool true)));;
  run (log MsgRegistered info);;
  run updateSIPStatus;;
  saveSettings.

Definition handleSIPUnregistered (payload : jsval) : M unit :=
  run (on_phone (set_isRegistered (JBool false)));;
  run (log MsgUnregistered warning);;
  run updateSIPStatus.

Definition handleIncomingCall (payload : jsval) : M unit :=
  run (on_phone (set_hasIncomingCall (JBool true)));;
  v ← eval (get_prop payload "caller_number");
  run (on_phone (set_currentCaller v));;
  v ← eval (get_prop payload "caller_number");
  run (showIncomingCall v).

Definition handleCallRinging (payload : jsval) : M unit :=
  run (on_dom (set_callStatus TextRinging));;
  run (log MsgRinging info).

Definition handleCallAnswered (payload : jsval) : M unit :=
  run (on_phone (set_isInCall (JBool true)));;
  run (on_phone (set_hasIncomingCall (JBool false)));;
  run stopRingtone;;
  run startCallTimer;;
  run (log MsgCallEstablished info);;
  run updateCallControls;;
  run updateCallInfo.

Definition handleCallEnded (payload : jsval) : M unit :=
  run (on_phone (set_isInCall (JBool false)));;
  run (on_phone (set_hasIncomingCall (JBool false)));;
  run stopCallTimer;;
  run stopRingtone;;
  run hideCallInfo;;
  run (log MsgCallEnded info);;
  run updateCallControls.

Definition handleCallFailed (payload : jsval) : M unit :=
  reason ← eval (get_prop payload "reason");
  run (log (MsgCallFailed reason) error);;
  run stopRingtone;;
  run hideCallInfo;;
  run updateCallControls.

(** The body of the [try] of [handleWebSocketMessage]. *)
Definition dispatch (message : RawMessage) : M unit :=
  data ← eval (JSON_parse message);
  type ← eval (get_prop data "type");
  run (log (MsgReceived type) debug);;
  match event_type type with
  | ev_status_update => payload ← eval (get_prop data "payload"); handleStatusUpdate payload
  | ev_sip_registered => payload ← eval (get_prop data "payload"); handleSIPRegistered payload
  | ev_sip_unregistered => payload ← eval (get_prop data "payload"); handleSIPUnregistered payload
  | ev_incoming_call => payload ← eval (get_prop data "payload"); handleIncomingCall payload
  | ev_call_ringing => payload ← eval (get_prop data "payload"); handleCallRinging payload
  | ev_call_answered => payload ← eval (get_prop data "payload"); handleCallAnswered payload
  | ev_call_ended => payload ← eval (get_prop data "payload"); handleCallEnded payload
  | ev_call_failed => payload ← eval (get_prop data "payload"); handleCallFailed payload
  | ev_success =>
      payload ← eval (get_prop data "payload");
      m ← eval (get_prop payload "message");
      run (log (MsgSuccess m) info)
  | ev_error =>
      payload ← eval (get_prop data "payload");
      m ← eval (get_prop payload "message");
      run (log (MsgError m) error)
  | ev_default => run (log (MsgUnknownType type) warning)
  end.

Definition handleWebSocketMessage (message : RawMessage) (w : World) : World :=
  try_catch (dispatch message)
    (fun err => log (MsgHandlingFailed err) error) w.

End Methods.

(** ** The life of a phone

    [new SIPPhone()] on a page and a store, then a sequence of callbacks.
    The browser runs one callback at a time. *)

Definition initial_phone : Phone :=
  {| websocket := None; isConnected := false;
     isRegistered := JBool false; isInCall := JBool false;
     hasIncomingCall := JBool false;
     callStartTime := None; callTimer := None;
     currentCaller := JStr ""; currentCallState := "IDLE";
     ringtoneInterval := None |}.

Definition initial_browser (settings : list Settings) (logs : list LogEntry) : Browser :=
  {| sockets := []; sent := []; timers := []; next_timer := 0%nat;
     sip_settings := settings; sip_phone_logs := logs; console := [] |}.

(** The constructor, on the page as [loadSettings] left it. *)
Definition new_SIPPhone (e : Env) (page : Dom)
    (settings : list Settings) (logs : list LogEntry) : World :=
  let w := mkWorld initial_phone page (initial_browser settings logs) in
  let w := connectWebSocket e w in
  log e MsgInitialized info w.

(** The commands: the methods that send a message to the gateway. *)
Inductive Cmd : Type :=
| CmdRequestStatus
| CmdRegister
| CmdUnregister
| CmdMakeCall
| CmdAnswerCall
| CmdHangupCall
| CmdSendDTMF (digit : jsval)
| CmdSendMessage (toNumber content : jsval).

Definition issue (e : Env) (c : Cmd) (w : World) : World :=
  match c with
  | CmdRequestStatus => requestStatus e w
  | CmdRegister => registerSIP e w
  | CmdUnregister => unregisterSIP e w
  | CmdMakeCall => makeCall e w
  | CmdAnswerCall => answerCall e w
  | CmdHangupCall => hangupCall e w
  | CmdSendDTMF digit => sendDTMF e digit w
  | CmdSendMessage toNumber content => fst (sendMessage e toNumber content w)
  end.

Inductive Field : Type :=
| phoneNumber | sipServer | sipPort | sipLogin | sipPassword | sipNumber | logLevelSelect.

Definition input (f : Field) (v : string) (d : Dom) : Dom :=
  match f with
  | phoneNumber => set_phoneNumber_value v d
  | sipServer => set_sipServer_value v d
  | sipPort => set_sipPort_value v d
  | sipLogin => set_sipLogin_value v d
  | sipPassword => set_sipPassword_value v d
  | sipNumber => set_sipNumber_value v d
  | logLevelSelect => set_logLevelSelect_value v d
  end.

(** What can happen to the phone: an event of one of its sockets, a timer
    that is due, a command, the user typing into a field, the page going
    away ([beforeunload] calls [destroy]). *)
Inductive Op : Type :=
| EvOpen (s : nat)
| EvMessage (s : nat) (m : RawMessage)
| EvError (s : nat)
| EvClose (s : nat)
| EvTimer (id : nat)
| Issue (c : Cmd)
| Input (f : Field) (v : string)
| Unload.

Definition set_readyState (s : nat) (st : ReadyState) (w : World) : World :=
  on_browser (fun b => set_sockets (<[s := st]> (sockets b)) b) w.

Fixpoint timer_kind (id : nat) (l : list (nat * TimerKind)) : option TimerKind :=
  match l with
  | [] => None
  | (i, k) :: r => if (i =? id)%nat then Some k else timer_kind id r
  end.

(** One callback.  [None]: the browser cannot deliver this event in this
    world: [open] comes to a connecting socket, a message to an open one,
    [error] and [close] to one that is not closed yet, and [close] comes
    once; a timer fires while it is scheduled, a timeout once. *)
Definition step (e : Env) (o : Op) (w : World) : option World :=
  match o with
  | EvOpen s =>
      match readyState s (browser w) with
      | Some CONNECTING => Some (onopen e (set_readyState s OPEN w))
      | _ => None
      end
  | EvMessage s m =>
      match readyState s (browser w) with
      | Some OPEN => Some (handleWebSocketMessage e m w)
      | _ => None
      end
  | EvError s =>
      match readyState s (browser w) with
      | Some CLOSED | None => None
      | Some _ => Some (onerror e w)
      end
  | EvClose s =>
      match readyState s (browser w) with
      | Some CLOSED | None => None
      | Some _ => Some (onclose e (set_readyState s CLOSED w))
      end
  | EvTimer id =>
      match timer_kind id (timers (browser w)) with
      | Some ReconnectTimeout => Some (connectWebSocket e (on_browser (clearInterval id) w))
      | Some RingtonePulse => Some w
      | Some CallTick => Some (callTick e w)
      | None => None
      end
  | Issue c => Some (issue e c w)
  | Input f v => Some (on_dom (input f v) w)
  | Unload => Some (destroy e w)
  end.

Fixpoint steps (tr : list (Env * Op)) (w : World) : option World :=
  match tr with
  | [] => Some w
  | (e, o) :: r =>
      match step e o w with
      | Some w1 => steps r w1
      | None => None
      end
  end.

(** ** The state the controls are drawn from *)

Inductive CallState : Type := IDLE | INCOMING_RINGING | ACTIVE.

(** The three-way test of [updateCallControls] and [updateCallInfo]. *)
Definition callState (p : Phone) : CallState :=
  if truthy (isInCall p) then ACTIVE
  else if truthy (hasIncomingCall p) then INCOMING_RINGING
  else IDLE.

Inductive RegistrationState : Type := UNREGISTERED | REGISTERING | REGISTERED.

(** The two-way test of [updateSIPStatus]. *)
Definition registrationState (p : Phone) : RegistrationState :=
  if truthy (isRegistered p) then REGISTERED else UNREGISTERED.

(** ** A sample page, clock and gateway message, for the examples *)
Definition page0 : Dom :=
  {| connectionStatus := false; sipStatus := false;
     callInfo_display := false; callInfo_incoming := false;
     remoteNumber := JStr ""; callDuration := ""; callStatus := NoText;
     answerBtn_disabled := true; hangupBtn_disabled := true;
     dialBtn_disabled := true; registerBtn_disabled := false;
     unregisterBtn_disabled := true; phoneNumber_disabled := true;
     phoneNumber_value := "1002"; sipServer_value := "10.0.0.1";
     sipPort_value := "5060"; sipLogin_value := "alice";
     sipPassword_value := "secret"; sipNumber_value := "1001";
     logLevelSelect_value := "INFO"; logContainer := [] |}.

Definition at_ (t : Z) : Env :=
  {| now := t; websocket_ok := true; audio_ok := true;
     settings_quota_ok := true; logs_quota_ok := true |}.

Definition world0 : World := new_SIPPhone (at_ 0) page0 [] [].

Definition event (type : string) (payload : list (string * jsval)) : RawMessage :=
  Parsed (JObj [("type", JStr type); ("payload", JObj payload)]).

(** ** The methods on a world given by its parts

    One equation per method: what it makes of the phone [p], the page [d]
    and the browser [b].  A callback is evaluated by rewriting with these
    equations from the innermost call outwards; a test that the parts do
    not decide is settled by a case analysis before the next call is
    rewritten. *)

(** [if (handle) { clearInterval(handle) }] *)
Definition clear_handle (h : option nat) (b : Browser) : Browser :=
  match h with
  | Some id => clearInterval id b
  | None => b
  end.

(** The settings read from the form. *)
Definition form_settings (d : Dom) : Settings :=
  {| sip_server := trim (sipServer_value d);
     sip_port := match parseInt (sipPort_value d) with
                 | Some n => if n =? 0 then 5060 else n
                 | None => 5060
                 end;
     login := trim (sipLogin_value d);
     password := trim (sipPassword_value d);
     number := trim (sipNumber_value d);
     log_level := None |}.

Definition append_log (x : LogEntry) (d : Dom) : Dom :=
  set_logContainer (logContainer d ++ [x]) d.

Section Equations.

Variable e : Env.
Variables (p : Phone) (d : Dom) (b : Browser).

Lemma on_phone_eq f : on_phone f (mkWorld p d b) = mkWorld (f p) d b.
Proof. reflexivity. Qed.

Lemma on_dom_eq f : on_dom f (mkWorld p d b) = mkWorld p (f d) b.
Proof. reflexivity. Qed.

Lemma on_browser_eq f : on_browser f (mkWorld p d b) = mkWorld p d (f b).
Proof. reflexivity. Qed.

Lemma log_eq m lv :
  log e m lv (mkWorld p d b) =
  mkWorld p (append_log (mkLogEntry (now e) m lv) d)
          (saveLogToStorage e (mkLogEntry (now e) m lv) b).
Proof. reflexivity. Qed.

Lemma stopRingtone_eq :
  stopRingtone (mkWorld p d b) =
  mkWorld (set_ringtoneInterval None p) d (clear_handle (ringtoneInterval p) b).
Proof. destruct p as [? ? ? ? ? ? ? ? ? []]; reflexivity. Qed.

Lemma playRingtone_eq :
  playRingtone e (mkWorld p d b) =
  if audio_ok e
  then mkWorld (set_ringtoneInterval (Some (next_timer b)) p) d (setInterval RingtonePulse b)
  else mkWorld p d (set_console (console b ++ [ConsoleRingtoneFailed AudioError]) b).
Proof. unfold playRingtone. destruct (audio_ok e); reflexivity. Qed.

Lemma startCallTimer_eq :
  startCallTimer e (mkWorld p d b) =
  mkWorld (set_callTimer (Some (next_timer b)) (set_callStartTime (Some (now e)) p)) d
          (setInterval CallTick b).
Proof. reflexivity. Qed.

Lemma stopCallTimer_eq :
  stopCallTimer (mkWorld p d b) =
  mkWorld (set_callTimer None p) (set_callDuration "" d) (clear_handle (callTimer p) b).
Proof. destruct p as [? ? ? ? ? ? [] ? ? ?]; reflexivity. Qed.

Definition duration_text (start : option Z) (t : Z) : string :=
  let start := match start with Some t0 => t0 | None => 0 end in
  let duration := (t - start) / 1000 in
  (padStart 2 "0" (string_of_Z (duration / 60)) ++ ":"
   ++ padStart 2 "0" (string_of_Z (Z.rem duration 60)))%string.

Lemma callTick_eq :
  callTick e (mkWorld p d b) =
  mkWorld p (set_callDuration (duration_text (callStartTime p) (now e)) d) b.
Proof. reflexivity. Qed.

Lemma updateConnectionStatus_eq :
  updateConnectionStatus (mkWorld p d b) =
  mkWorld p (set_connectionStatus (isConnected p) d) b.
Proof. reflexivity. Qed.

Lemma updateSIPStatus_eq :
  updateSIPStatus (mkWorld p d b) =
  if truthy (isRegistered p) then
    mkWorld p (set_dialBtn_disabled false (set_unregisterBtn_disabled false
                (set_registerBtn_disabled true (set_sipStatus true d)))) b
  else
    mkWorld p (set_dialBtn_disabled true (set_unregisterBtn_disabled true
                (set_registerBtn_disabled false (set_sipStatus false d)))) b.
Proof. unfold updateSIPStatus; cbn. destruct (truthy (isRegistered p)); reflexivity. Qed.

Lemma updateCallControls_eq :
  updateCallControls (mkWorld p d b) =
  if truthy (isInCall p) then
    mkWorld p (set_phoneNumber_disabled true (set_dialBtn_disabled true
                (set_hangupBtn_disabled false (set_answerBtn_disabled true d)))) b
  else if truthy (hasIncomingCall p) then
    mkWorld p (set_phoneNumber_disabled true (set_dialBtn_disabled true
                (set_hangupBtn_disabled false (set_answerBtn_disabled false d)))) b
  else
    mkWorld p (set_phoneNumber_disabled (negb (truthy (isRegistered p)))
                (set_dialBtn_disabled (negb (truthy (isRegistered p)))
                   (set_hangupBtn_disabled true (set_answerBtn_disabled true d)))) b.
Proof.
  unfold updateCallControls; cbn.
  destruct (truthy (isInCall p)); [reflexivity |].
  destruct (truthy (hasIncomingCall p)); reflexivity.
Qed.

Definition incoming_panel (callerNumber : jsval) (d : Dom) : Dom :=
  set_hangupBtn_disabled false (set_answerBtn_disabled false
    (set_callStatus TextIncoming (set_remoteNumber callerNumber
       (set_callInfo_incoming true (set_callInfo_display true d))))).

Lemma showIncomingCall_eq callerNumber :
  showIncomingCall e callerNumber (mkWorld p d b) =
  playRingtone e (mkWorld p (incoming_panel callerNumber d) b).
Proof. reflexivity. Qed.

Lemma showOutgoingCall_eq number :
  showOutgoingCall number (mkWorld p d b) =
  mkWorld p (set_hangupBtn_disabled false (set_answerBtn_disabled true
              (set_callStatus TextConnecting (set_remoteNumber (JStr number)
                 (set_callInfo_incoming false (set_callInfo_display true d)))))) b.
Proof. reflexivity. Qed.

Lemma updateCallInfo_eq :
  updateCallInfo e (mkWorld p d b) =
  if truthy (isInCall p) then
    mkWorld p (set_callStatus TextTalking
                (set_remoteNumber (js_or (currentCaller p) (JStr (phoneNumber_value d)))
                   (set_callInfo_incoming false (set_callInfo_display true d)))) b
  else if truthy (hasIncomingCall p) then
    playRingtone e (mkWorld p (incoming_panel (currentCaller p) d) b)
  else mkWorld p d b.
Proof.
  unfold updateCallInfo; cbn.
  destruct (truthy (isInCall p)); [reflexivity |].
  destruct (truthy (hasIncomingCall p)); reflexivity.
Qed.

Lemma hideCallInfo_eq :
  hideCallInfo (mkWorld p d b) =
  stopRingtone (mkWorld p (set_callStatus NoText (set_callDuration ""
                  (set_remoteNumber (JStr "") (set_callInfo_display false d)))) b).
Proof. reflexivity. Qed.

Lemma sendWebSocketMessage_eq c :
  sendWebSocketMessage e c (mkWorld p d b) =
  match websocket p with
  | Some s =>
      match readyState s b with
      | Some OPEN => mkWorld p d (set_sent (sent b ++ [(s, c)]) b)
      | _ => log e MsgWsNotConnected error (mkWorld p d b)
      end
  | None => log e MsgWsNotConnected error (mkWorld p d b)
  end.
Proof. reflexivity. Qed.

Lemma setTimeout_reconnect_eq :
  setTimeout_reconnect (mkWorld p d b) = mkWorld p d (setInterval ReconnectTimeout b).
Proof. reflexivity. Qed.

Lemma connectWebSocket_eq :
  connectWebSocket e (mkWorld p d b) =
  if websocket_ok e
  then mkWorld (set_websocket (Some (length (sockets b))) p) d
               (set_sockets (sockets b ++ [CONNECTING]) b)
  else log e (MsgWsConnectFailed SecurityError) error (mkWorld p d b).
Proof.
  unfold connectWebSocket, try_catch, new_WebSocket, mbind, M_bind, run.
  destruct (websocket_ok e); reflexivity.
Qed.

Lemma set_readyState_eq s st :
  set_readyState s st (mkWorld p d b) = mkWorld p d (set_sockets (<[s := st]> (sockets b)) b).
Proof. reflexivity. Qed.

Lemma getSIPSettings_eq : getSIPSettings (mkWorld p d b) = form_settings d.
Proof. reflexivity. Qed.

Lemma saveSettings_eq :
  saveSettings e (mkWorld p d b) =
  if settings_quota_ok e then
    (log e MsgSettingsSaved info
       (mkWorld p d (set_sip_settings
          (sip_settings b ++ [with_log_level (form_settings d)
                                (logLevelSelect_value d)]) b)),
     Ok tt)
  else (mkWorld p d b, Throw QuotaExceededError).
Proof. unfold saveSettings. destruct (settings_quota_ok e); reflexivity. Qed.

Lemma destroy_eq :
  destroy e (mkWorld p d b) =
  log e MsgStopped info
    (stopRingtone
       (stopCallTimer
          (match websocket p with
           | Some s =>
               match readyState s b with
               | Some CONNECTING | Some OPEN =>
                   mkWorld p d (set_sockets (<[s := CLOSING]> (sockets b)) b)
               | _ => mkWorld p d b
               end
           | None => mkWorld p d b
           end))).
Proof. reflexivity. Qed.

End Equations.

(** The commands and the handlers that cannot throw, as the sequences of
    calls they are. *)
Section Sequences.

Variable e : Env.
Variable w : World.

Lemma requestStatus_eq : requestStatus e w = sendWebSocketMessage e get_status w.
Proof. reflexivity. Qed.

Lemma onopen_eq :
  onopen e w =
  requestStatus e (updateConnectionStatus (on_phone (set_isConnected true)
    (log e MsgWsConnected info w))).
Proof. reflexivity. Qed.

Lemma onclose_eq :
  onclose e w =
  setTimeout_reconnect (updateConnectionStatus (on_phone (set_isConnected false)
    (log e MsgWsClosed warning w))).
Proof. reflexivity. Qed.

Lemma onerror_eq : onerror e w = log e MsgWsError error w.
Proof. reflexivity. Qed.

Lemma registerSIP_eq :
  registerSIP e w =
  if validateSIPSettings (getSIPSettings w)
  then log e MsgRegisterSent info
         (sendWebSocketMessage e (sip_register (getSIPSettings w)) w)
  else log e MsgFillSettings warning w.
Proof. unfold registerSIP. destruct (validateSIPSettings _); reflexivity. Qed.

Lemma unregisterSIP_eq :
  unregisterSIP e w = log e MsgUnregisterSent info (sendWebSocketMessage e sip_unregister w).
Proof. reflexivity. Qed.

Lemma makeCall_eq :
  makeCall e w =
  if nonempty (trim (phoneNumber_value (dom w)))
  then log e (MsgDialing (trim (phoneNumber_value (dom w)))) info
         (showOutgoingCall (trim (phoneNumber_value (dom w)))
            (sendWebSocketMessage e (sip_make_call (trim (phoneNumber_value (dom w)))) w))
  else log e MsgEnterNumber warning w.
Proof. unfold makeCall. destruct (nonempty _); reflexivity. Qed.

Lemma answerCall_eq :
  answerCall e w = log e MsgAnswering info (sendWebSocketMessage e sip_answer_call w).
Proof. reflexivity. Qed.

Lemma hangupCall_eq :
  hangupCall e w =
  log e MsgHangupSent info
    (updateCallControls (stopCallTimer (stopRingtone
       (on_phone (set_hasIncomingCall (JBool false))
          (on_phone (set_isInCall (JBool false))
             (sendWebSocketMessage e sip_hangup_call w)))))).
Proof. reflexivity. Qed.

Lemma sendDTMF_eq digit :
  sendDTMF e digit w =
  if truthy (isInCall (phone w))
  then log e (MsgDtmfSent digit) info (sendWebSocketMessage e (sip_send_dtmf digit) w)
  else log e MsgNoActiveCall warning w.
Proof. reflexivity. Qed.

Lemma sendMessage_eq toNumber content :
  fst (sendMessage e toNumber content w) =
  if truthy (isRegistered (phone w))
  then log e (MsgSendingMessage toNumber) info
         (sendWebSocketMessage e (sip_send_message toNumber content) w)
  else log e MsgNotRegistered warning w.
Proof. unfold sendMessage. destruct (truthy _); reflexivity. Qed.

Lemma handleSIPRegistered_eq payload :
  handleSIPRegistered e payload w =
  saveSettings e (updateSIPStatus (log e MsgRegistered info
    (on_phone (set_isRegistered (JBool true)) w))).
Proof. reflexivity. Qed.

Lemma handleSIPUnregistered_eq payload :
  handleSIPUnregistered e payload w =
  (updateSIPStatus (log e MsgUnregistered warning
     (on_phone (set_isRegistered (JBool false)) w)), Ok tt).
Proof. reflexivity. Qed.

Lemma handleCallRinging_eq payload :
  handleCallRinging e payload w =
  (log e MsgRinging info (on_dom (set_callStatus TextRinging) w), Ok tt).
Proof. reflexivity. Qed.

Lemma handleCallAnswered_eq payload :
  handleCallAnswered e payload w =
  (updateCallInfo e (updateCallControls (log e MsgCallEstablished info
     (startCallTimer e (stopRingtone
        (on_phone (set_hasIncomingCall (JBool false))
           (on_phone (set_isInCall (JBool true)) w)))))), Ok tt).
Proof. reflexivity. Qed.

Lemma handleCallEnded_eq payload :
  handleCallEnded e payload w =
  (updateCallControls (log e MsgCallEnded info (hideCallInfo (stopRingtone
     (stopCallTimer (on_phone (set_hasIncomingCall (JBool false))
        (on_phone (set_isInCall (JBool false)) w)))))), Ok tt).
Proof. reflexivity. Qed.

(** The handlers that read the payload throw on [null] and [undefined]. *)
Definition no_properties (payload : jsval) : bool :=
  match payload with
  | Undefined | JNull => true
  | _ => false
  end.

(** [payload.k] where the read does not throw. *)
Definition prop (payload : jsval) (k : string) : jsval :=
  match get_prop payload k with
  | Ok v => v
  | Throw _ => Undefined
  end.

Lemma handleStatusUpdate_eq payload :
  handleStatusUpdate e payload w =
  if no_properties payload then (w, Throw TypeError)
  else
    (updateCallInfo e (updateCallControls (updateSIPStatus
       (on_phone (set_currentCaller (prop payload "caller_number"))
          (on_phone (set_hasIncomingCall (prop payload "has_incoming"))
             (on_phone (set_isInCall (prop payload "active_call"))
                (on_phone (set_isRegistered (prop payload "sip_registered")) w)))))),
     Ok tt).
Proof. destruct payload; reflexivity. Qed.

Lemma handleIncomingCall_eq payload :
  handleIncomingCall e payload w =
  if no_properties payload
  then (on_phone (set_hasIncomingCall (JBool true)) w, Throw TypeError)
  else
    (showIncomingCall e (prop payload "caller_number")
       (on_phone (set_currentCaller (prop payload "caller_number"))
          (on_phone (set_hasIncomingCall (JBool true)) w)),
     Ok tt).
Proof. destruct payload; reflexivity. Qed.

Lemma handleCallFailed_eq payload :
  handleCallFailed e payload w =
  if no_properties payload then (w, Throw TypeError)
  else
    (updateCallControls (hideCallInfo (stopRingtone
       (log e (MsgCallFailed (prop payload "reason")) error w))), Ok tt).
Proof. destruct payload; reflexivity. Qed.

End Sequences.

(** *** The dispatcher, case by case *)

(** The [case] taken for a message that parsed to an object. *)
Definition handler_of (e : Env) (t : EventType) (type payload : jsval) : M unit :=
  match t with
  | ev_status_update => handleStatusUpdate e payload
  | ev_sip_registered => handleSIPRegistered e payload
  | ev_sip_unregistered => handleSIPUnregistered e payload
  | ev_incoming_call => handleIncomingCall e payload
  | ev_call_ringing => handleCallRinging e payload
  | ev_call_answered => handleCallAnswered e payload
  | ev_call_ended => handleCallEnded e payload
  | ev_call_failed => handleCallFailed e payload
  | ev_success =>
      if no_properties payload then throw TypeError
      else run (log e (MsgSuccess (prop payload "message")) info)
  | ev_error =>
      if no_properties payload then throw TypeError
      else run (log e (MsgError (prop payload "message")) error)
  | ev_default => run (log e (MsgUnknownType type) warning)
  end.

(** [catch (error) { this.log(..., 'error') }] *)
Definition caught (e : Env) (r : World * Result unit) : World :=
  match r with
  | (w, Ok _) => w
  | (w, Throw err) => log e (MsgHandlingFailed err) error w
  end.

Lemma handle_object e l w :
  handleWebSocketMessage e (Parsed (JObj l)) w =
  caught e (handler_of e (event_type (assoc "type" l)) (assoc "type" l) (assoc "payload" l)
              (log e (MsgReceived (assoc "type" l)) debug w)).
Proof.
  unfold handleWebSocketMessage, try_catch, dispatch, caught.
  cbv beta iota zeta delta [mbind M_bind eval run JSON_parse get_prop handler_of].
  destruct (event_type (assoc "type" l)); try reflexivity.
  all: destruct (assoc "payload" l); reflexivity.
Qed.

Lemma handle_malformed e w :
  handleWebSocketMessage e Malformed w = log e (MsgHandlingFailed SyntaxError) error w.
Proof. reflexivity. Qed.

(** [null]: the read of [data.type] throws. *)
Lemma handle_null e data w :
  no_properties data = true ->
  handleWebSocketMessage e (Parsed data) w = log e (MsgHandlingFailed TypeError) error w.
Proof. destruct data; try discriminate; reflexivity. Qed.

(** A number, a string, a boolean or an array has no [type]. *)
Lemma handle_scalar e data w :
  no_properties data = false ->
  (forall l, data <> JObj l) ->
  handleWebSocketMessage e (Parsed data) w =
  log e (MsgUnknownType Undefined) warning (log e (MsgReceived Undefined) debug w).
Proof.
  intros H N. destruct data; try discriminate; try reflexivity.
  now destruct (N l).
Qed.

Definition has_type (data : jsval) (type : string) : Prop :=
  get_prop data "type" = Ok (JStr type).

Lemma has_type_object data type :
  has_type data type -> exists l, data = JObj l /\ assoc "type" l = JStr type.
Proof.
  unfold has_type. destruct data; cbn; try discriminate.
  intros H. injection H as H. eauto.
Qed.

Lemma get_prop_object l k : get_prop (JObj l) k = Ok (assoc k l).
Proof. reflexivity. Qed.

Lemma prop_object l k : prop (JObj l) k = assoc k l.
Proof. reflexivity. Qed.

(** *** Methods that leave a part of the world alone *)

Section Frames.

Variable e : Env.
Variable w : World.

Lemma log_phone m lv : phone (log e m lv w) = phone w.
Proof. reflexivity. Qed.

Lemma on_phone_phone f : phone (on_phone f w) = f (phone w).
Proof. reflexivity. Qed.

Lemma on_phone_dom f : dom (on_phone f w) = dom w.
Proof. reflexivity. Qed.

Lemma on_phone_browser f : browser (on_phone f w) = browser w.
Proof. reflexivity. Qed.

Lemma on_dom_phone f : phone (on_dom f w) = phone w.
Proof. reflexivity. Qed.

Lemma on_browser_phone f : phone (on_browser f w) = phone w.
Proof. reflexivity. Qed.

Lemma updateCallControls_hangupBtn :
  hangupBtn_disabled (dom (updateCallControls w)) =
  negb (truthy (isInCall (phone w))) && negb (truthy (hasIncomingCall (phone w))).
Proof.
  unfold updateCallControls.
  destruct (truthy (isInCall _)); [| destruct (truthy (hasIncomingCall _))]; reflexivity.
Qed.

Lemma updateCallControls_answerBtn :
  answerBtn_disabled (dom (updateCallControls w)) =
  truthy (isInCall (phone w)) || negb (truthy (hasIncomingCall (phone w))).
Proof.
  unfold updateCallControls.
  destruct (truthy (isInCall _)); [| destruct (truthy (hasIncomingCall _))]; reflexivity.
Qed.

Lemma updateCallInfo_dom :
  dom (updateCallInfo e w) =
  if truthy (isInCall (phone w)) then
    set_callStatus TextTalking
      (set_remoteNumber (js_or (currentCaller (phone w)) (JStr (phoneNumber_value (dom w))))
         (set_callInfo_incoming false (set_callInfo_display true (dom w))))
  else if truthy (hasIncomingCall (phone w)) then
    incoming_panel (currentCaller (phone w)) (dom w)
  else dom w.
Proof.
  unfold updateCallInfo, showIncomingCall, playRingtone.
  destruct (truthy (isInCall _)); [reflexivity |].
  destruct (truthy (hasIncomingCall _)); [| reflexivity].
  destruct (audio_ok e); reflexivity.
Qed.

Lemma updateSIPStatus_phone : phone (updateSIPStatus w) = phone w.
Proof. unfold updateSIPStatus. destruct (truthy _); reflexivity. Qed.

Lemma updateSIPStatus_browser : browser (updateSIPStatus w) = browser w.
Proof. unfold updateSIPStatus. destruct (truthy _); reflexivity. Qed.

Lemma updateCallControls_phone : phone (updateCallControls w) = phone w.
Proof. unfold updateCallControls. repeat destruct (truthy _); reflexivity. Qed.

Lemma updateCallControls_browser : browser (updateCallControls w) = browser w.
Proof. unfold updateCallControls. repeat destruct (truthy _); reflexivity. Qed.

Lemma updateConnectionStatus_phone : phone (updateConnectionStatus w) = phone w.
Proof. reflexivity. Qed.

Lemma updateConnectionStatus_browser : browser (updateConnectionStatus w) = browser w.
Proof. reflexivity. Qed.

Lemma sendWebSocketMessage_phone c : phone (sendWebSocketMessage e c w) = phone w.
Proof.
  unfold sendWebSocketMessage.
  destruct (websocket (phone w)); [| reflexivity].
  destruct (readyState n (browser w)) as [[] |]; reflexivity.
Qed.

Lemma playRingtone_phone :
  phone (playRingtone e w) =
  if audio_ok e then set_ringtoneInterval (Some (next_timer (browser w))) (phone w)
  else phone w.
Proof. unfold playRingtone. destruct (audio_ok e); reflexivity. Qed.

Lemma updateCallInfo_phone :
  phone (updateCallInfo e w) =
  if truthy (isInCall (phone w)) then phone w
  else if truthy (hasIncomingCall (phone w))
       then (if audio_ok e
             then set_ringtoneInterval (Some (next_timer (browser w))) (phone w)
             else phone w)
       else phone w.
Proof.
  unfold updateCallInfo, showIncomingCall.
  destruct (truthy (isInCall _)); [reflexivity |].
  destruct (truthy (hasIncomingCall _)); [| reflexivity].
  unfold playRingtone. destruct (audio_ok e); reflexivity.
Qed.

Lemma requestStatus_phone : phone (requestStatus e w) = phone w.
Proof. apply sendWebSocketMessage_phone. Qed.

Lemma registerSIP_phone : phone (registerSIP e w) = phone w.
Proof.
  unfold registerSIP. destruct (negb _); cbn; [reflexivity |].
  apply sendWebSocketMessage_phone.
Qed.

Lemma unregisterSIP_phone : phone (unregisterSIP e w) = phone w.
Proof. apply sendWebSocketMessage_phone. Qed.

Lemma makeCall_phone : phone (makeCall e w) = phone w.
Proof.
  unfold makeCall. destruct (negb _); cbn; [reflexivity |].
  apply sendWebSocketMessage_phone.
Qed.

Lemma answerCall_phone : phone (answerCall e w) = phone w.
Proof. apply sendWebSocketMessage_phone. Qed.

Lemma sendDTMF_phone digit : phone (sendDTMF e digit w) = phone w.
Proof.
  unfold sendDTMF. destruct (truthy _); cbn; [| reflexivity].
  apply sendWebSocketMessage_phone.
Qed.

Lemma sendMessage_phone toNumber content :
  phone (fst (sendMessage e toNumber content w)) = phone w.
Proof.
  unfold sendMessage. destruct (negb _); cbn; [reflexivity |].
  apply sendWebSocketMessage_phone.
Qed.

Lemma showOutgoingCall_phone number : phone (showOutgoingCall number w) = phone w.
Proof. reflexivity. Qed.

Lemma showOutgoingCall_browser number : browser (showOutgoingCall number w) = browser w.
Proof. reflexivity. Qed.

(** [updateSIPStatus] and [updateCallControls] write to buttons and labels
    only. *)
Definition same_panel (d d' : Dom) : Prop :=
  callInfo_display d' = callInfo_display d
  /\ callInfo_incoming d' = callInfo_incoming d
  /\ remoteNumber d' = remoteNumber d
  /\ callDuration d' = callDuration d
  /\ callStatus d' = callStatus d
  /\ logContainer d' = logContainer d.

Lemma updateSIPStatus_dom : same_panel (dom w) (dom (updateSIPStatus w)).
Proof. unfold updateSIPStatus. destruct (truthy _); repeat split. Qed.

Lemma updateCallControls_dom : same_panel (dom w) (dom (updateCallControls w)).
Proof.
  unfold updateCallControls.
  destruct (truthy (isInCall _)); [| destruct (truthy (hasIncomingCall _))]; repeat split.
Qed.

Lemma updateCallControls_logContainer :
  logContainer (dom (updateCallControls w)) = logContainer (dom w).
Proof. apply updateCallControls_dom. Qed.

Lemma updateCallControls_remoteNumber :
  remoteNumber (dom (updateCallControls w)) = remoteNumber (dom w).
Proof. apply updateCallControls_dom. Qed.

Lemma updateCallControls_callDuration :
  callDuration (dom (updateCallControls w)) = callDuration (dom w).
Proof. apply updateCallControls_dom. Qed.

Lemma updateCallControls_callStatus :
  callStatus (dom (updateCallControls w)) = callStatus (dom w).
Proof. apply updateCallControls_dom. Qed.

Lemma updateCallControls_callInfo_display :
  callInfo_display (dom (updateCallControls w)) = callInfo_display (dom w).
Proof. apply updateCallControls_dom. Qed.

Lemma updateSIPStatus_logContainer :
  logContainer (dom (updateSIPStatus w)) = logContainer (dom w).
Proof. apply updateSIPStatus_dom. Qed.

End Frames.

(** *** Evaluation *)

Lemma saveLogToStorage_sockets e x b : sockets (saveLogToStorage e x b) = sockets b.
Proof. unfold saveLogToStorage. destruct (logs_quota_ok e); reflexivity. Qed.

Lemma saveLogToStorage_sent e x b : sent (saveLogToStorage e x b) = sent b.
Proof. unfold saveLogToStorage. destruct (logs_quota_ok e); reflexivity. Qed.

Lemma saveLogToStorage_timers e x b : timers (saveLogToStorage e x b) = timers b.
Proof. unfold saveLogToStorage. destruct (logs_quota_ok e); reflexivity. Qed.

Lemma saveLogToStorage_next_timer e x b :
  next_timer (saveLogToStorage e x b) = next_timer b.
Proof. unfold saveLogToStorage. destruct (logs_quota_ok e); reflexivity. Qed.

Lemma saveLogToStorage_sip_settings e x b :
  sip_settings (saveLogToStorage e x b) = sip_settings b.
Proof. unfold saveLogToStorage. destruct (logs_quota_ok e); reflexivity. Qed.

(** What [clearInterval] of a handle leaves of the timers. *)
Definition clear_timers (h : option nat) (l : list (nat * TimerKind)) :
    list (nat * TimerKind) :=
  match h with
  | Some id => List.filter (fun t => negb (fst t =? id)%nat) l
  | None => l
  end.

Lemma clear_handle_timers h b : timers (clear_handle h b) = clear_timers h (timers b).
Proof. destruct h; reflexivity. Qed.

Lemma clear_handle_sockets h b : sockets (clear_handle h b) = sockets b.
Proof. destruct h; reflexivity. Qed.

Lemma clear_handle_sent h b : sent (clear_handle h b) = sent b.
Proof. destruct h; reflexivity. Qed.

Lemma clear_handle_next_timer h b : next_timer (clear_handle h b) = next_timer b.
Proof. destruct h; reflexivity. Qed.

Lemma clear_handle_sip_settings h b : sip_settings (clear_handle h b) = sip_settings b.
Proof. destruct h; reflexivity. Qed.

Arguments saveLogToStorage : simpl never.
Arguments clear_handle !h b /.
Arguments clear_timers : simpl never.
Arguments trim : simpl never.
Arguments parseInt : simpl never.
Arguments getSIPSettings : simpl never.
Arguments form_settings : simpl never.
Arguments validateSIPSettings : simpl never.
Arguments event_type : simpl never.
Arguments assoc : simpl never.
Arguments prop : simpl never.
Arguments duration_text : simpl never.
Arguments on_phone : simpl never.
Arguments on_dom : simpl never.
Arguments on_browser : simpl never.
Arguments log : simpl never.
Arguments stopRingtone : simpl never.
Arguments playRingtone : simpl never.
Arguments startCallTimer : simpl never.
Arguments stopCallTimer : simpl never.
Arguments callTick : simpl never.
Arguments updateConnectionStatus : simpl never.
Arguments updateSIPStatus : simpl never.
Arguments updateCallControls : simpl never.
Arguments showIncomingCall : simpl never.
Arguments showOutgoingCall : simpl never.
Arguments updateCallInfo : simpl never.
Arguments hideCallInfo : simpl never.
Arguments sendWebSocketMessage : simpl never.
Arguments requestStatus : simpl never.
Arguments onopen : simpl never.
Arguments onclose : simpl never.
Arguments onerror : simpl never.
Arguments setTimeout_reconnect : simpl never.
Arguments connectWebSocket : simpl never.
Arguments registerSIP : simpl never.
Arguments unregisterSIP : simpl never.
Arguments makeCall : simpl never.
Arguments answerCall : simpl never.
Arguments hangupCall : simpl never.
Arguments sendDTMF : simpl never.
Arguments sendMessage : simpl never.
Arguments saveSettings : simpl never.
Arguments destroy : simpl never.
Arguments set_readyState : simpl never.
Arguments handleWebSocketMessage : simpl never.
Arguments handleStatusUpdate : simpl never.
Arguments handleSIPRegistered : simpl never.
Arguments handleSIPUnregistered : simpl never.
Arguments handleIncomingCall : simpl never.
Arguments handleCallRinging : simpl never.
Arguments handleCallAnswered : simpl never.
Arguments handleCallEnded : simpl never.
Arguments handleCallFailed : simpl never.

(** A read that a frame lemma settles. *)
Ltac rewrite_frame :=
  match goal with
  | |- context [getSIPSettings (mkWorld _ _ _)] => rewrite !getSIPSettings_eq
  | |- context [issue _ _ _] => unfold issue
  | |- context [prop (JObj _) _] => rewrite !prop_object
  | |- context [phone (log _ _ _ _)] => rewrite !log_phone
  | |- context [phone (on_phone _ _)] => rewrite !on_phone_phone
  | |- context [dom (on_phone _ _)] => rewrite !on_phone_dom
  | |- context [browser (on_phone _ _)] => rewrite !on_phone_browser
  | |- context [phone (on_dom _ _)] => rewrite !on_dom_phone
  | |- context [phone (on_browser _ _)] => rewrite !on_browser_phone
  | |- context [hangupBtn_disabled (dom (updateCallControls _))] =>
      rewrite !updateCallControls_hangupBtn
  | |- context [answerBtn_disabled (dom (updateCallControls _))] =>
      rewrite !updateCallControls_answerBtn
  | |- context [dom (updateCallInfo _ _)] => rewrite !updateCallInfo_dom
  | |- context [phone (updateSIPStatus _)] => rewrite !updateSIPStatus_phone
  | |- context [browser (updateSIPStatus _)] => rewrite !updateSIPStatus_browser
  | |- context [phone (updateCallControls _)] => rewrite !updateCallControls_phone
  | |- context [browser (updateCallControls _)] => rewrite !updateCallControls_browser
  | |- context [phone (updateConnectionStatus _)] => rewrite !updateConnectionStatus_phone
  | |- context [browser (updateConnectionStatus _)] => rewrite !updateConnectionStatus_browser
  | |- context [phone (sendWebSocketMessage _ _ _)] => rewrite !sendWebSocketMessage_phone
  | |- context [phone (showOutgoingCall _ _)] => rewrite !showOutgoingCall_phone
  | |- context [phone (updateCallInfo _ _)] => rewrite !updateCallInfo_phone
  | |- context [browser (showOutgoingCall _ _)] => rewrite !showOutgoingCall_browser
  | |- context [logContainer (dom (updateCallControls _))] => rewrite !updateCallControls_logContainer
  | |- context [remoteNumber (dom (updateCallControls _))] => rewrite !updateCallControls_remoteNumber
  | |- context [callDuration (dom (updateCallControls _))] => rewrite !updateCallControls_callDuration
  | |- context [callStatus (dom (updateCallControls _))] => rewrite !updateCallControls_callStatus
  | |- context [callInfo_display (dom (updateCallControls _))] => rewrite !updateCallControls_callInfo_display
  | |- context [logContainer (dom (updateSIPStatus _))] => rewrite !updateSIPStatus_logContainer
  | |- context [sockets (saveLogToStorage _ _ _)] => rewrite !saveLogToStorage_sockets
  | |- context [sent (saveLogToStorage _ _ _)] => rewrite !saveLogToStorage_sent
  | |- context [timers (saveLogToStorage _ _ _)] => rewrite !saveLogToStorage_timers
  | |- context [next_timer (saveLogToStorage _ _ _)] => rewrite !saveLogToStorage_next_timer
  | |- context [sip_settings (saveLogToStorage _ _ _)] => rewrite !saveLogToStorage_sip_settings
  | |- context [timers (clear_handle _ _)] => rewrite !clear_handle_timers
  | |- context [sockets (clear_handle _ _)] => rewrite !clear_handle_sockets
  | |- context [sent (clear_handle _ _)] => rewrite !clear_handle_sent
  | |- context [next_timer (clear_handle _ _)] => rewrite !clear_handle_next_timer
  | |- context [sip_settings (clear_handle _ _)] => rewrite !clear_handle_sip_settings
  | |- context [phone (requestStatus _ _)] => rewrite !requestStatus_phone
  | |- context [phone (registerSIP _ _)] => rewrite !registerSIP_phone
  | |- context [phone (unregisterSIP _ _)] => rewrite !unregisterSIP_phone
  | |- context [phone (makeCall _ _)] => rewrite !makeCall_phone
  | |- context [phone (answerCall _ _)] => rewrite !answerCall_phone
  | |- context [phone (sendDTMF _ _ _)] => rewrite !sendDTMF_phone
  | |- context [phone (fst (sendMessage _ _ _ _))] => rewrite !sendMessage_phone
  end.

(** One call: a handler, then a method on a world given by its parts, then
    a command. *)
Ltac rewrite_call :=
  match goal with
  | |- context [handleSIPRegistered _ _ _] => rewrite !handleSIPRegistered_eq
  | |- context [handleSIPUnregistered _ _ _] => rewrite !handleSIPUnregistered_eq
  | |- context [handleCallRinging _ _ _] => rewrite !handleCallRinging_eq
  | |- context [handleCallAnswered _ _ _] => rewrite !handleCallAnswered_eq
  | |- context [handleCallEnded _ _ _] => rewrite !handleCallEnded_eq
  | |- context [handleStatusUpdate _ _ _] => rewrite !handleStatusUpdate_eq
  | |- context [handleIncomingCall _ _ _] => rewrite !handleIncomingCall_eq
  | |- context [handleCallFailed _ _ _] => rewrite !handleCallFailed_eq
  | |- context [handleWebSocketMessage _ (Parsed (JObj _)) _] => rewrite !handle_object
  | |- context [handleWebSocketMessage _ Malformed _] => rewrite !handle_malformed
  | |- context [handleWebSocketMessage _ (Parsed ?data) _] =>
      first [ rewrite !(handle_null _ data) by reflexivity
            | rewrite !(handle_scalar _ data) by first [reflexivity | discriminate] ]
  | |- context [on_phone _ (mkWorld _ _ _)] => rewrite !on_phone_eq
  | |- context [on_dom _ (mkWorld _ _ _)] => rewrite !on_dom_eq
  | |- context [on_browser _ (mkWorld _ _ _)] => rewrite !on_browser_eq
  | |- context [log _ _ _ (mkWorld _ _ _)] => rewrite !log_eq
  | |- context [stopRingtone (mkWorld _ _ _)] => rewrite !stopRingtone_eq
  | |- context [playRingtone _ (mkWorld _ _ _)] => rewrite !playRingtone_eq
  | |- context [startCallTimer _ (mkWorld _ _ _)] => rewrite !startCallTimer_eq
  | |- context [stopCallTimer (mkWorld _ _ _)] => rewrite !stopCallTimer_eq
  | |- context [callTick _ (mkWorld _ _ _)] => rewrite !callTick_eq
  | |- context [updateConnectionStatus (mkWorld _ _ _)] => rewrite !updateConnectionStatus_eq
  | |- context [updateSIPStatus (mkWorld _ _ _)] => rewrite !updateSIPStatus_eq
  | |- context [updateCallControls (mkWorld _ _ _)] => rewrite !updateCallControls_eq
  | |- context [showIncomingCall _ _ (mkWorld _ _ _)] => rewrite !showIncomingCall_eq
  | |- context [showOutgoingCall _ (mkWorld _ _ _)] => rewrite !showOutgoingCall_eq
  | |- context [updateCallInfo _ (mkWorld _ _ _)] => rewrite !updateCallInfo_eq
  | |- context [hideCallInfo (mkWorld _ _ _)] => rewrite !hideCallInfo_eq
  | |- context [sendWebSocketMessage _ _ (mkWorld _ _ _)] => rewrite !sendWebSocketMessage_eq
  | |- context [setTimeout_reconnect (mkWorld _ _ _)] => rewrite !setTimeout_reconnect_eq
  | |- context [connectWebSocket _ (mkWorld _ _ _)] => rewrite !connectWebSocket_eq
  | |- context [set_readyState _ _ (mkWorld _ _ _)] => rewrite !set_readyState_eq
  | |- context [saveSettings _ (mkWorld _ _ _)] => rewrite !saveSettings_eq
  | |- context [destroy _ (mkWorld _ _ _)] => rewrite !destroy_eq
  | |- context [requestStatus _ _] => rewrite !requestStatus_eq
  | |- context [onopen _ _] => rewrite !onopen_eq
  | |- context [onclose _ _] => rewrite !onclose_eq
  | |- context [onerror _ _] => rewrite !onerror_eq
  | |- context [registerSIP _ _] => rewrite !registerSIP_eq
  | |- context [unregisterSIP _ _] => rewrite !unregisterSIP_eq
  | |- context [makeCall _ _] => rewrite !makeCall_eq
  | |- context [answerCall _ _] => rewrite !answerCall_eq
  | |- context [hangupCall _ _] => rewrite !hangupCall_eq
  | |- context [sendDTMF _ _ _] => rewrite !sendDTMF_eq
  | |- context [fst (sendMessage _ _ _ _)] => rewrite !sendMessage_eq
  end.

(** Reduce the reads of fields, and rewrite the calls that are ready. *)
Ltac reduce := repeat (first [progress cbn | rewrite_frame | rewrite_call]).

(** Settle the innermost test that is stuck and that reads the parts of
    the world directly. *)
Ltac decide_test :=
  match goal with
  | |- context [match ?x with _ => _ end] =>
      lazymatch x with
      | context [match _ with _ => _ end] => fail
      | context [phone _] => fail
      | context [dom _] => fail
      | context [browser _] => fail
      | context [mkWorld _ _ _] => fail
      | _ => destruct x eqn:?
      end
  end.

(** Evaluate: a test is settled as soon as it is stuck, before any call
    below it is rewritten. *)
Ltac known_test :=
  match goal with
  | H : ?x = _ |- context [match ?x with _ => _ end] => rewrite H
  end.

Ltac evaluate :=
  repeat (first [progress cbn | rewrite_frame | known_test | decide_test | rewrite_call]).

(** Use again what the case analyses have settled. *)
Ltac use_tests :=
  repeat match goal with
         | H : truthy ?x = _ |- context [truthy ?x] => rewrite H
         end.

(** Give the world by its parts. *)
Ltac parts w := destruct w as [?p ?d ?b].

Ltac by_eval := vm_compute; reflexivity.

Ltac known_type :=
  repeat match goal with
         | |- context [event_type (JStr ?s)] =>
             let v := eval vm_compute in (event_type (JStr s)) in
             change (event_type (JStr s)) with v
         end;
  cbv beta iota delta [handler_of].

(** Go into the handler of a message whose type is known by [H]. *)
Ltac on_event H :=
  let T := fresh "T" in
  pose proof H as T;
  apply has_type_object in T as (? & -> & T);
  rewrite !handle_object, ?T; known_type.

Definition new_entries (w w' : World) (es : list LogEntry) : Prop :=
  logContainer (dom w') = logContainer (dom w) ++ es.

(** ** The timers that are scheduled *)

Lemma timer_kind_filter id f l :
  timer_kind id l = None -> timer_kind id (List.filter f l) = None.
Proof.
  induction l as [| [i k] r IH]; cbn; [reflexivity |].
  destruct (i =? id)%nat eqn:E; [discriminate |].
  intros H. destruct (f (i, k)); cbn; rewrite ?E; auto.
Qed.

Lemma timer_kind_cleared id l :
  timer_kind id (List.filter (fun t => negb (fst t =? id)%nat) l) = None.
Proof.
  induction l as [| [i k] r IH]; cbn; [reflexivity |].
  destruct (i =? id)%nat eqn:E; cbn; rewrite ?E; auto.
Qed.

(** A cleared handle is no longer scheduled, and clearing another handle
    schedules nothing. *)
Lemma clear_timers_stops id l : timer_kind id (clear_timers (Some id) l) = None.
Proof. apply timer_kind_cleared. Qed.

Lemma clear_timers_keeps_stopped id h l :
  timer_kind id l = None -> timer_kind id (clear_timers h l) = None.
Proof. destruct h; [apply timer_kind_filter | auto]. Qed.

Create HintDb timers.

#[global] Hint Resolve clear_timers_stops clear_timers_keeps_stopped : timers.


Lemma timer_kind_app id l l' :
  timer_kind id (l ++ l')
  = match timer_kind id l with Some k => Some k | None => timer_kind id l' end.
Proof.
  induction l as [| [i k] r IH]; cbn; [reflexivity |].
  destruct (i =? id)%nat; auto.
Qed.

(** Clearing one id leaves the timers of every other id scheduled. *)
Lemma timer_kind_filter_other id id' l :
  id <> id' ->
  timer_kind id (List.filter (fun t => negb (fst t =? id')%nat) l) = timer_kind id l.
Proof.
  intros N. induction l as [| [i k] r IH]; cbn; [reflexivity |].
  destruct (i =? id')%nat eqn:E'; cbn; rewrite IH.
  - apply Nat.eqb_eq in E' as ->.
    destruct (id' =? id)%nat eqn:E; [| reflexivity].
    apply Nat.eqb_eq in E. congruence.
  - reflexivity.
Qed.

Lemma timer_kind_clear_other id h l :
  h <> Some id -> timer_kind id (clear_timers h l) = timer_kind id l.
Proof.
  destruct h as [i |]; [| reflexivity]. intros N.
  apply timer_kind_filter_other. congruence.
Qed.

(** What [hangupCall], [handleCallEnded] and [destroy] leave scheduled:
    every timer but those that the two handles name. *)
Lemma handles_unscheduled c r l id :
  c = Some id \/ r = Some id ->
  timer_kind id (clear_timers c (clear_timers r l)) = None
  /\ timer_kind id (clear_timers r (clear_timers c l)) = None.
Proof. intros [-> | ->]; split; auto with timers. Qed.

(** ** Commands issued without an open connection *)

(** Whether a command gets as far as [sendWebSocketMessage]: four of them
    test something first. *)
Definition reaches_send (c : Cmd) (w : World) : bool :=
  match c with
  | CmdRegister => validateSIPSettings (getSIPSettings w)
  | CmdMakeCall => nonempty (trim (phoneNumber_value (dom w)))
  | CmdSendDTMF _ => truthy (isInCall (phone w))
  | CmdSendMessage _ _ => truthy (isRegistered (phone w))
  | _ => true
  end.

(** A call is up and the socket has closed. *)
Definition talking_offline : list (Env * Op) :=
  [(at_ 1000, EvOpen 0%nat);
   (at_ 2000, EvMessage 0%nat (event "call_answered" []));
   (at_ 3000, EvClose 0%nat)].

Ltac log_tail :=
  eexists; split; [| split; [unfold new_entries; cbn; rewrite <- ?app_assoc; reflexivity |]];
  [discriminate | cbn; intros; try congruence; auto].

(** C1, as the code has it.  A command issued while the socket is absent or
    not open sends nothing and is logged; when it reached the send, the
    entry "WebSocket is not connected" is among the new ones.  The
    registration flag, the caller and the call start time keep their
    values.  For every command but [hangupCall] the two call flags, the two
    interval handles and the timers that are scheduled are as before.
    [hangupCall] clears both flags and both handles whether or not the
    socket is open: the intervals that [callTimer] and [ringtoneInterval]
    named are no longer scheduled, every other timer still is, and the
    displayed duration is empty. *)
Theorem command_while_not_open e c w :
  websocket_open w = false ->
  let w' := issue e c w in
  sent (browser w') = sent (browser w)
  /\ (exists es, es <> [] /\ new_entries w w' es
        /\ (reaches_send c w = true ->
            In (mkLogEntry (now e) MsgWsNotConnected error) es))
  /\ isRegistered (phone w') = isRegistered (phone w)
  /\ currentCaller (phone w') = currentCaller (phone w)
  /\ callStartTime (phone w') = callStartTime (phone w)
  /\ match c with
     | CmdHangupCall =>
         isInCall (phone w') = JBool false /\ hasIncomingCall (phone w') = JBool false
     | _ =>
         isInCall (phone w') = isInCall (phone w)
         /\ hasIncomingCall (phone w') = hasIncomingCall (phone w)
     end
  /\ match c with
     | CmdHangupCall =>
         callTimer (phone w') = None
         /\ ringtoneInterval (phone w') = None
         /\ timers (browser w')
            = clear_timers (callTimer (phone w))
                (clear_timers (ringtoneInterval (phone w)) (timers (browser w)))
         /\ (forall id,
               callTimer (phone w) = Some id \/ ringtoneInterval (phone w) = Some id ->
               timer_kind id (timers (browser w')) = None)
         /\ callDuration (dom w') = ""
     | _ =>
         callTimer (phone w') = callTimer (phone w)
         /\ ringtoneInterval (phone w') = ringtoneInterval (phone w)
         /\ timers (browser w') = timers (browser w)
     end.
Proof.
  unfold websocket_open, reaches_send. parts w. destruct c.
  all: cbv zeta; evaluate; intros Hclosed; try congruence.
  all: repeat match goal with |- _ /\ _ => split end; try reflexivity.
  all: try (intros id I; eapply proj1, handles_unscheduled; exact I).
  all: log_tail.
Qed.

Lemma command_while_not_open_witness :
  exists w, steps talking_offline world0 = Some w
  /\ websocket_open w = false
  /\ sent (browser (issue (at_ 4000) CmdHangupCall w)) = sent (browser w)
  /\ callStartTime (phone (issue (at_ 4000) CmdHangupCall w)) = callStartTime (phone w).
Proof.
  eexists. split; [by_eval |].
  match goal with
  | |- websocket_open ?w = false /\ _ =>
      assert (H : websocket_open w = false) by by_eval;
      split; [exact H |];
      pose proof (command_while_not_open (at_ 4000) CmdHangupCall w H) as T
  end.
  split; apply T.
Defined.

Lemma hangup_while_not_open_clears_call :
  exists w, steps talking_offline world0 = Some w
  /\ websocket_open w = false
  /\ isInCall (phone w) = JBool true
  /\ isInCall (phone (issue (at_ 4000) CmdHangupCall w)) = JBool false.
Proof. eexists. split; [by_eval |]. repeat split; by_eval. Qed.

(** ** Registration confirmations *)

(** What [saveSettings] writes under 'sip_settings'. *)
Definition settings_to_save (w : World) : Settings :=
  with_log_level (getSIPSettings w) (logLevelSelect_value (dom w)).

(** C2, as the code has it.  Every [sip_registered] event sets the
    registration flag and, when the store accepts the item, writes the
    settings: two events in a row leave the phone registered and write the
    same settings twice. *)
Theorem sip_registered_twice e1 e2 data1 data2 w :
  has_type data1 "sip_registered" ->
  has_type data2 "sip_registered" ->
  settings_quota_ok e1 = true ->
  settings_quota_ok e2 = true ->
  let w1 := handleWebSocketMessage e1 (Parsed data1) w in
  let w2 := handleWebSocketMessage e2 (Parsed data2) w1 in
  isRegistered (phone w1) = JBool true
  /\ isRegistered (phone w2) = JBool true
  /\ sip_settings (browser w1) = sip_settings (browser w) ++ [settings_to_save w]
  /\ sip_settings (browser w2) =
       sip_settings (browser w) ++ [settings_to_save w; settings_to_save w].
Proof.
  intros H1 H2 Q1 Q2. parts w. cbv zeta.
  on_event H1. on_event H2.
  unfold settings_to_save.
  reduce. rewrite Q1. reduce. rewrite Q2. reduce.
  unfold form_settings; cbn.
  rewrite <- ?app_assoc; repeat split.
Qed.

Definition registered_twice : list (Env * Op) :=
  [(at_ 1000, EvOpen 0%nat);
   (at_ 2000, EvMessage 0%nat (event "sip_registered" []));
   (at_ 2001, EvMessage 0%nat (event "sip_registered" []))].

Lemma sip_registered_twice_witness :
  exists w, steps [(at_ 1000, EvOpen 0%nat)] world0 = Some w
  /\ sip_settings
       (browser (handleWebSocketMessage (at_ 2001) (event "sip_registered" [])
                   (handleWebSocketMessage (at_ 2000) (event "sip_registered" []) w))) =
     sip_settings (browser w) ++ [settings_to_save w; settings_to_save w].
Proof.
  eexists. split; [by_eval |].
  match goal with
  | |- sip_settings (browser (handleWebSocketMessage ?e2 (event ?t ?p)
                                (handleWebSocketMessage ?e1 _ ?w))) = _ =>
      apply (sip_registered_twice e1 e2
               (JObj [("type", JStr t); ("payload", JObj p)])
               (JObj [("type", JStr t); ("payload", JObj p)]) w);
      by_eval
  end.
Defined.

Lemma sip_registered_twice_saves_twice :
  exists w, steps registered_twice world0 = Some w
  /\ sip_settings (browser world0) = []
  /\ List.length (sip_settings (browser w)) = 2%nat
  /\ List.length (List.filter
       (fun x => match message x with MsgSettingsSaved => true | _ => false end)
       (logContainer (dom w))) = 2%nat.
Proof. eexists. split; [by_eval |]. repeat split; by_eval. Qed.

(** ** Failed calls *)

Lemma handleCallFailed_keeps_flags e payload w :
  let w' := fst (handleCallFailed e payload w) in
  isInCall (phone w') = isInCall (phone w)
  /\ hasIncomingCall (phone w') = hasIncomingCall (phone w)
  /\ callState (phone w') = callState (phone w).
Proof.
  unfold callState. parts w. cbv zeta. evaluate; repeat split; congruence.
Qed.

Definition talking_then_failed : list (Env * Op) :=
  [(at_ 1000, EvOpen 0%nat);
   (at_ 2000, EvMessage 0%nat (event "call_answered" []));
   (at_ 3000, EvMessage 0%nat (event "call_failed" [("reason", JStr "busy")]))].

Definition ringing_then_failed : list (Env * Op) :=
  [(at_ 1000, EvOpen 0%nat);
   (at_ 2000, EvMessage 0%nat (event "incoming_call" [("caller_number", JStr "1003")]));
   (at_ 3000, EvMessage 0%nat (event "call_failed" [("reason", JStr "busy")]))].

(** C3.  A [call_failed] event does not bring the call state to IDLE.
    Received during a call it leaves [isInCall] set: the state stays ACTIVE
    and the hang-up button stays enabled, while the call panel is hidden
    and the reason is logged.  Received while an incoming call rings it
    leaves [hasIncomingCall] set: the ringtone is stopped but the state
    stays INCOMING_RINGING with the answer button enabled.
    [handleCallEnded] and [hangupCall] clear both flags;
    [handleCallFailed] assigns neither. *)
Theorem call_failed_leaves_call_state :
  (exists w, steps talking_then_failed world0 = Some w
     /\ isInCall (phone w) = JBool true
     /\ callState (phone w) = ACTIVE
     /\ hangupBtn_disabled (dom w) = false
     /\ callInfo_display (dom w) = false
     /\ In (mkLogEntry 3000 (MsgCallFailed (JStr "busy")) error) (logContainer (dom w)))
  /\ (exists w, steps ringing_then_failed world0 = Some w
     /\ hasIncomingCall (phone w) = JBool true
     /\ callState (phone w) = INCOMING_RINGING
     /\ ringtoneInterval (phone w) = None
     /\ timers (browser w) = []
     /\ answerBtn_disabled (dom w) = false).
Proof.
  split; eexists; (split; [by_eval |]); vm_compute; repeat split; auto 10.
Qed.

(** ** Events with a missing payload *)

(** C10.  The dispatcher is not atomic.  An [incoming_call] message that
    parses but has no payload sets [hasIncomingCall] and then fails on
    [payload.caller_number]; the dispatcher catches the TypeError and logs
    it, and the flag stays set: the caller, the ringtone and the call panel
    are as before, the call state is no longer IDLE. *)
Theorem incoming_call_without_payload e data w :
  has_type data "incoming_call" ->
  get_prop data "payload" = Ok Undefined ->
  let w' := handleWebSocketMessage e (Parsed data) w in
  hasIncomingCall (phone w') = JBool true
  /\ (callState (phone w) = IDLE -> callState (phone w') = INCOMING_RINGING)
  /\ currentCaller (phone w') = currentCaller (phone w)
  /\ isInCall (phone w') = isInCall (phone w)
  /\ isRegistered (phone w') = isRegistered (phone w)
  /\ ringtoneInterval (phone w') = ringtoneInterval (phone w)
  /\ timers (browser w') = timers (browser w)
  /\ remoteNumber (dom w') = remoteNumber (dom w)
  /\ callInfo_display (dom w') = callInfo_display (dom w)
  /\ new_entries w w'
       [mkLogEntry (now e) (MsgReceived (JStr "incoming_call")) debug;
        mkLogEntry (now e) (MsgHandlingFailed TypeError) error].
Proof.
  intros H P. parts w. cbv zeta. unfold callState, new_entries.
  on_event H. rewrite get_prop_object in P. injection P as ->.
  reduce.
  repeat split; try (rewrite <- app_assoc; reflexivity).
  destruct (truthy (isInCall p)); congruence.
Qed.

Lemma incoming_call_without_payload_witness :
  exists w, steps [(at_ 1000, EvOpen 0%nat)] world0 = Some w
  /\ hasIncomingCall (phone w) = JBool false
  /\ hasIncomingCall
       (phone (handleWebSocketMessage (at_ 2000)
                 (Parsed (JObj [("type", JStr "incoming_call")])) w)) = JBool true.
Proof.
  eexists. split; [by_eval |]. split; [by_eval |].
  match goal with
  | |- hasIncomingCall (phone (handleWebSocketMessage ?e (Parsed ?d) ?w)) = _ =>
      apply (incoming_call_without_payload e d w); by_eval
  end.
Defined.

(** ** Status snapshots *)

(** C5.  A [status_update] event that carries a payload assigns the four
    fields from it, whatever they held: the registration flag, the
    active-call flag, the incoming-call flag and the caller number.  When
    the snapshot reports neither an active nor an incoming call the call
    state is IDLE and the hang-up and answer buttons are disabled; this
    holds in particular right after [makeCall]. *)
Theorem status_update_overwrites e e0 data fields w :
  has_type data "status_update" ->
  get_prop data "payload" = Ok (JObj fields) ->
  let w' := handleWebSocketMessage e (Parsed data) w in
  let w'' := handleWebSocketMessage e (Parsed data) (issue e0 CmdMakeCall w) in
  isRegistered (phone w') = assoc "sip_registered" fields
  /\ isInCall (phone w') = assoc "active_call" fields
  /\ hasIncomingCall (phone w') = assoc "has_incoming" fields
  /\ currentCaller (phone w') = assoc "caller_number" fields
  /\ (truthy (assoc "active_call" fields) = false ->
      truthy (assoc "has_incoming" fields) = false ->
      callState (phone w') = IDLE
      /\ callState (phone w'') = IDLE
      /\ hangupBtn_disabled (dom w'') = true
      /\ answerBtn_disabled (dom w'') = true).
Proof.
  intros H P. parts w. cbv zeta. unfold callState.
  on_event H. rewrite get_prop_object in P. injection P as ->.
  repeat split.
  1-4: evaluate; congruence.
  all: match goal with
       | A : truthy _ = false, B : truthy _ = false |- _ => revert A B
       end.
  all: evaluate; intros A B; try congruence.
  all: use_tests; reflexivity.
Qed.

Definition dial_then_snapshot : RawMessage :=
  event "status_update"
    [("sip_registered", JBool true); ("active_call", JBool false);
     ("has_incoming", JBool false); ("caller_number", JStr "")].

Lemma status_update_overwrites_witness :
  exists w, steps [(at_ 1000, EvOpen 0%nat)] world0 = Some w
  /\ isRegistered (phone w) = JBool false
  /\ isRegistered (phone (handleWebSocketMessage (at_ 3000) dial_then_snapshot w)) = JBool true.
Proof.
  eexists. split; [by_eval |]. split; [by_eval |].
  match goal with
  | |- isRegistered (phone (handleWebSocketMessage ?e _ ?w)) = _ =>
      apply (status_update_overwrites e (at_ 2000)
               (JObj [("type", JStr "status_update");
                      ("payload", JObj [("sip_registered", JBool true);
                                        ("active_call", JBool false);
                                        ("has_incoming", JBool false);
                                        ("caller_number", JStr "")])])
               [("sip_registered", JBool true); ("active_call", JBool false);
                ("has_incoming", JBool false); ("caller_number", JStr "")] w);
      by_eval
  end.
Defined.

(** ** Invariants of the runs *)

Lemma steps_preserve (P : World -> Prop) (allowed : Op -> bool) :
  (forall e o w w', allowed o = true -> step e o w = Some w' -> P w -> P w') ->
  forall tr w w',
    Forall (fun x => allowed (snd x) = true) tr ->
    steps tr w = Some w' -> P w -> P w'.
Proof.
  intros Hstep tr. induction tr as [| [e o] r IH]; cbn; intros w w' Hall Hrun HP.
  - injection Hrun as <-. exact HP.
  - inversion Hall as [| x l Ho Hr]; subst; cbn in Ho.
    destruct (step e o w) as [w1 |] eqn:E; [| discriminate].
    eapply IH; eauto.
Qed.

Lemma steps_preserve_all (P : World -> Prop) :
  (forall e o w w', step e o w = Some w' -> P w -> P w') ->
  forall tr w w', steps tr w = Some w' -> P w -> P w'.
Proof.
  intros Hstep tr. induction tr as [| [e o] r IH]; cbn; intros w w' Hrun HP.
  - injection Hrun as <-. exact HP.
  - destruct (step e o w) as [w1 |] eqn:E; [| discriminate].
    eapply IH; eauto.
Qed.

(** The cases of [step]: the callback that runs, on a world given by its
    parts, and what the browser knows when it delivers the event. *)
Ltac step_guard :=
  repeat match goal with
         | |- match ?x with _ => _ end = Some _ -> _ => destruct x eqn:?
         end;
  try (intros; discriminate);
  intros [= <-].

Ltac step_cases :=
  match goal with
  | |- forall (e : Env) (o : Op) (w w' : World), _ =>
      intros e o w w'; parts w;
      destruct o as [s | s [| [| | | | | | l]] | s | s | id | [] | f v |];
      cbn [step browser]
  end.

(** The [case] of the dispatcher that a message takes. *)
Ltac by_type :=
  match goal with
  | H : event_type ?t = _ |- context [handler_of _ (event_type ?t)] =>
      rewrite H; cbv beta iota delta [handler_of]
  | |- context [handler_of _ (event_type ?t)] =>
      destruct (event_type t) eqn:?; cbv beta iota delta [handler_of]
  end.

(** *** The start time of a call *)

(** A [status_update] message whose payload reports an active call: the
    one message that sets [isInCall] without [startCallTimer]. *)
Definition reports_active_call (o : Op) : bool :=
  match o with
  | EvMessage _ (Parsed data) =>
      match get_prop data "type" with
      | Ok type =>
          match event_type type with
          | ev_status_update => truthy (prop (prop data "payload") "active_call")
          | _ => false
          end
      | Throw _ => false
      end
  | _ => false
  end.

Definition started_if_active (w : World) : Prop :=
  callState (phone w) = ACTIVE -> callStartTime (phone w) <> None.

Definition started (w : World) : Prop := callStartTime (phone w) <> None.

Lemma step_keeps_started e o w w' :
  step e o w = Some w' -> started w -> started w'.
Proof.
  revert e o w w'. step_cases; unfold started; step_guard.
  all: evaluate; try (by_type; evaluate).
  all: auto; discriminate.
Qed.

Lemma step_keeps_started_if_active e o w w' :
  reports_active_call o = false ->
  step e o w = Some w' -> started_if_active w -> started_if_active w'.
Proof.
  revert e o w w'. step_cases; unfold started_if_active, callState; intros U; step_guard.
  all: cbn in U; rewrite ?prop_object in U; reduce; try by_type.
  all: evaluate; auto; try discriminate; congruence.
Qed.

Lemma new_SIPPhone_idle e page settings logs :
  callState (phone (new_SIPPhone e page settings logs)) = IDLE.
Proof. unfold new_SIPPhone, callState. evaluate; reflexivity. Qed.

(** C4, as the code has it.  Over every run from the constructor in which
    no [status_update] reports an active call, a call in state ACTIVE has
    its start time set: every other message, every [status_update] that
    reports no active call, every command, socket event and timer keeps
    this.  The start time is never cleared: once set it stays set over
    every run, whatever the call state becomes. *)
Theorem call_start_time_invariant e0 page settings logs tr w :
  steps tr (new_SIPPhone e0 page settings logs) = Some w ->
  (Forall (fun x => negb (reports_active_call (snd x)) = true) tr ->
   callState (phone w) = ACTIVE -> callStartTime (phone w) <> None)
  /\ (forall tr' w',
        steps tr' w = Some w' ->
        callStartTime (phone w) <> None -> callStartTime (phone w') <> None).
Proof.
  intros Hrun. split.
  - intros Hall.
    apply (steps_preserve started_if_active (fun o => negb (reports_active_call o)))
      with (tr := tr) (w := new_SIPPhone e0 page settings logs); auto.
    + intros e o w1 w2 Ho. apply step_keeps_started_if_active.
      now destruct (reports_active_call o).
    + intros A. rewrite new_SIPPhone_idle in A. discriminate.
  - intros tr' w'. apply (steps_preserve_all started). intros e o. apply step_keeps_started.
Qed.

Definition talking : list (Env * Op) :=
  [(at_ 1000, EvOpen 0%nat);
   (at_ 2000, EvMessage 0%nat (event "call_answered" []))].

(** The gateway answers the [get_status] of [onopen] with a snapshot, and
    the call is answered after it. *)
Definition snapshot_then_talking : list (Env * Op) :=
  [(at_ 1000, EvOpen 0%nat);
   (at_ 1500, EvMessage 0%nat
                (event "status_update"
                   [("sip_registered", JBool true); ("active_call", JBool false);
                    ("has_incoming", JBool false); ("caller_number", JStr "")]));
   (at_ 2000, EvMessage 0%nat (event "call_answered" []))].

Lemma call_start_time_invariant_witness :
  exists w, steps snapshot_then_talking world0 = Some w
  /\ callState (phone w) = ACTIVE
  /\ callStartTime (phone w) <> None.
Proof.
  eexists. split; [by_eval |]. split; [by_eval |].
  refine (proj1 (call_start_time_invariant (at_ 0) page0 [] []
                   snapshot_then_talking _ _) _ _).
  - by_eval.
  - repeat constructor.
  - by_eval.
Defined.

(** The start time outlives the call: [stopCallTimer] clears the handle
    and the displayed duration, and nothing assigns [callStartTime] but
    [startCallTimer]. *)
Lemma call_start_time_outlives_call :
  exists w,
    steps (talking ++ [(at_ 3000, EvMessage 0%nat (event "call_ended" []))]) world0 = Some w
    /\ callState (phone w) = IDLE
    /\ callStartTime (phone w) = Some 2000.
Proof. eexists. split; [by_eval |]. split; by_eval. Qed.

(** [handleStatusUpdate] takes [isInCall] from the snapshot and does not
    start the timer, as [handleCallAnswered] does: a snapshot that reports
    an active call leaves the call ACTIVE with no start time and no tick
    scheduled. *)
Lemma status_update_active_without_start_time :
  exists w,
    steps [(at_ 1000, EvOpen 0%nat);
           (at_ 2000, EvMessage 0%nat
                        (event "status_update"
                           [("sip_registered", JBool true); ("active_call", JBool true);
                            ("has_incoming", JBool false); ("caller_number", JStr "")]))]
          world0 = Some w
    /\ callState (phone w) = ACTIVE
    /\ callStartTime (phone w) = None
    /\ callTimer (phone w) = None
    /\ timers (browser w) = [].
Proof. eexists. split; [by_eval |]. repeat split; by_eval. Qed.

(** ** Ending a call *)

(** X23.  [hangupCall] ends the call on the phone's side at once, from every
    state: both flags and both interval handles are cleared, the intervals
    the handles named are taken off the timers and no other, the displayed
    duration is emptied and the answer and hang-up buttons are disabled.
    The call panel is left as it is.  A [call_ended] event handled next
    changes no field of the phone and no timer; it hides the panel, empties
    the number and the status text it shows, and adds two log entries. *)
Theorem hangup_then_call_ended e1 e2 data w :
  has_type data "call_ended" ->
  let w1 := hangupCall e1 w in
  let w2 := handleWebSocketMessage e2 (Parsed data) w1 in
  (callState (phone w1) = IDLE
   /\ callTimer (phone w1) = None
   /\ ringtoneInterval (phone w1) = None
   /\ timers (browser w1)
      = clear_timers (callTimer (phone w))
          (clear_timers (ringtoneInterval (phone w)) (timers (browser w)))
   /\ callDuration (dom w1) = ""
   /\ answerBtn_disabled (dom w1) = true
   /\ hangupBtn_disabled (dom w1) = true
   /\ callInfo_display (dom w1) = callInfo_display (dom w)
   /\ remoteNumber (dom w1) = remoteNumber (dom w)
   /\ callStatus (dom w1) = callStatus (dom w))
  /\ (phone w2 = phone w1
      /\ timers (browser w2) = timers (browser w1)
      /\ sent (browser w2) = sent (browser w1)
      /\ callInfo_display (dom w2) = false
      /\ remoteNumber (dom w2) = JStr ""
      /\ callStatus (dom w2) = NoText
      /\ new_entries w1 w2
           [mkLogEntry (now e2) (MsgReceived (JStr "call_ended")) debug;
            mkLogEntry (now e2) MsgCallEnded info]).
Proof.
  intros H. parts w. cbv zeta. unfold callState, new_entries.
  on_event H. evaluate.
  all: repeat split; rewrite <- ?app_assoc; reflexivity.
Qed.

Lemma hangup_then_call_ended_witness :
  exists w, steps talking world0 = Some w
  /\ callState (phone w) = ACTIVE
  /\ callInfo_display (dom (hangupCall (at_ 3000) w)) = true
  /\ callInfo_display
       (dom (handleWebSocketMessage (at_ 4000) (event "call_ended" [])
               (hangupCall (at_ 3000) w))) = false.
Proof.
  eexists. split; [by_eval |]. split; [by_eval |]. split; [by_eval |].
  match goal with
  | |- callInfo_display (dom (handleWebSocketMessage ?e2 _ (hangupCall ?e1 ?w))) = _ =>
      apply (hangup_then_call_ended e1 e2
               (JObj [("type", JStr "call_ended"); ("payload", JObj [])]) w);
      by_eval
  end.
Defined.

(** X24.  A [call_ended] event leaves the call state IDLE from every state: both
    call flags are cleared, the call timer and ringtone handles are cleared
    and the intervals they named are no longer scheduled, the call panel is
    hidden, and the remote number, the duration and the status text it
    shows are empty.  The timers that no handle names stay scheduled, and
    the field [currentCaller] keeps its value. *)
Theorem call_ended_clears_call e data w :
  has_type data "call_ended" ->
  let w' := handleWebSocketMessage e (Parsed data) w in
  callState (phone w') = IDLE
  /\ isInCall (phone w') = JBool false
  /\ hasIncomingCall (phone w') = JBool false
  /\ callTimer (phone w') = None
  /\ ringtoneInterval (phone w') = None
  /\ timers (browser w')
     = clear_timers (ringtoneInterval (phone w))
         (clear_timers (callTimer (phone w)) (timers (browser w)))
  /\ (forall id, callTimer (phone w) = Some id \/ ringtoneInterval (phone w) = Some id ->
        timer_kind id (timers (browser w')) = None)
  /\ remoteNumber (dom w') = JStr ""
  /\ callDuration (dom w') = ""
  /\ callStatus (dom w') = NoText
  /\ callInfo_display (dom w') = false
  /\ currentCaller (phone w') = currentCaller (phone w).
Proof.
  intros H. parts w. cbv zeta. unfold callState.
  on_event H. evaluate.
  all: repeat match goal with |- _ /\ _ => split end; try reflexivity.
  all: intros id I; eapply proj2, handles_unscheduled; exact I.
Qed.

Definition ringing : list (Env * Op) :=
  [(at_ 1000, EvOpen 0%nat);
   (at_ 2000, EvMessage 0%nat (event "incoming_call" [("caller_number", JStr "1003")]))].

Lemma call_ended_clears_call_witness :
  exists w, steps ringing world0 = Some w
  /\ callState (phone w) = INCOMING_RINGING
  /\ remoteNumber (dom w) = JStr "1003"
  /\ remoteNumber (dom (handleWebSocketMessage (at_ 3000) (event "call_ended" []) w)) = JStr "".
Proof.
  eexists. split; [by_eval |]. split; [by_eval |]. split; [by_eval |].
  match goal with
  | |- remoteNumber (dom (handleWebSocketMessage ?e _ ?w)) = _ =>
      apply (call_ended_clears_call e
               (JObj [("type", JStr "call_ended"); ("payload", JObj [])]) w);
      by_eval
  end.
Defined.

(** ** Registering *)

Lemma registrationState_two_valued p : registrationState p <> REGISTERING.
Proof. unfold registrationState. destruct (truthy (isRegistered p)); discriminate. Qed.

(** The three messages whose handlers assign [isRegistered]. *)
Definition changes_registration (o : Op) : bool :=
  match o with
  | EvMessage _ (Parsed data) =>
      match get_prop data "type" with
      | Ok type =>
          match event_type type with
          | ev_status_update | ev_sip_registered | ev_sip_unregistered => true
          | _ => false
          end
      | Throw _ => false
      end
  | _ => false
  end.

Lemma step_keeps_isRegistered e o w w' :
  changes_registration o = false ->
  step e o w = Some w' -> isRegistered (phone w') = isRegistered (phone w).
Proof.
  revert e o w w'. step_cases; intros U; step_guard.
  all: cbn in U; reduce; try by_type; try discriminate U.
  all: evaluate; reflexivity.
Qed.

Lemma sip_registered_registers e data w :
  has_type data "sip_registered" ->
  isRegistered (phone (handleWebSocketMessage e (Parsed data) w)) = JBool true.
Proof. intros H. parts w. on_event H. evaluate; reflexivity. Qed.

Lemma sip_unregistered_unregisters e data w :
  has_type data "sip_unregistered" ->
  isRegistered (phone (handleWebSocketMessage e (Parsed data) w)) = JBool false.
Proof. intros H. parts w. on_event H. evaluate; reflexivity. Qed.

(** C7, as the code has it.  [registerSIP] with valid settings on an open
    socket sends one [sip_register] message with the settings and logs the
    request.  It changes no field of the phone and nothing of the page but
    the log, so the registration state is what it was and is shown as it
    was.  The state stays so over every run that follows, whatever
    commands, socket events, timers and messages the run holds, until a
    [sip_registered], [sip_unregistered] or [status_update] message
    arrives.  A [sip_registered] message then makes the state REGISTERED
    and a [sip_unregistered] message UNREGISTERED. *)
Theorem register_sends_and_keeps_state e s w :
  websocket (phone w) = Some s ->
  readyState s (browser w) = Some OPEN ->
  validateSIPSettings (getSIPSettings w) = true ->
  let w' := issue e CmdRegister w in
  sent (browser w') = sent (browser w) ++ [(s, sip_register (getSIPSettings w))]
  /\ new_entries w w' [mkLogEntry (now e) MsgRegisterSent info]
  /\ dom w' = append_log (mkLogEntry (now e) MsgRegisterSent info) (dom w)
  /\ phone w' = phone w
  /\ registrationState (phone w') = registrationState (phone w)
  /\ (forall tr w'',
        Forall (fun x => negb (changes_registration (snd x)) = true) tr ->
        steps tr w' = Some w'' ->
        isRegistered (phone w'') = isRegistered (phone w)
        /\ registrationState (phone w'') = registrationState (phone w))
  /\ (forall e' data,
        has_type data "sip_registered" ->
        registrationState (phone (handleWebSocketMessage e' (Parsed data) w')) = REGISTERED)
  /\ (forall e' data,
        has_type data "sip_unregistered" ->
        registrationState (phone (handleWebSocketMessage e' (Parsed data) w'))
        = UNREGISTERED).
Proof.
  intros W R V. cbv zeta.
  assert (P : phone (issue e CmdRegister w) = phone w).
  { parts w. reduce. reflexivity. }
  repeat match goal with |- _ /\ _ => split end.
  4: exact P.
  4: now rewrite P.
  4: { intros tr w'' Hall Hrun.
       assert (I : isRegistered (phone w'') = isRegistered (phone w)).
       { apply (steps_preserve
                  (fun x => isRegistered (phone x) = isRegistered (phone w))
                  (fun o => negb (changes_registration o)))
           with (tr := tr) (w := issue e CmdRegister w); auto.
         - intros e' o w1 w2 Ho Hs H1. rewrite <- H1.
           apply (step_keeps_isRegistered e' o); [| exact Hs].
           now destruct (changes_registration o).
         - now rewrite P. }
       split; [exact I |]. unfold registrationState. now rewrite I. }
  4: { intros e' data H. unfold registrationState.
       now rewrite (sip_registered_registers e' data _ H). }
  4: { intros e' data H. unfold registrationState.
       now rewrite (sip_unregistered_unregisters e' data _ H). }
  all: revert W R V; parts w; unfold new_entries; rewrite getSIPSettings_eq; cbn.
  all: intros W R V; reduce; rewrite ?V; reduce; rewrite ?W; reduce; rewrite ?R; reduce.
  all: reflexivity.
Qed.

(** After the request: the socket closes, the reconnect fires, the new
    socket opens. *)
Definition reconnected : list (Env * Op) :=
  [(at_ 3000, EvClose 0%nat); (at_ 8000, EvTimer 0%nat); (at_ 8100, EvOpen 1%nat)].

Lemma register_sends_and_keeps_state_witness :
  exists w w'',
    steps [(at_ 1000, EvOpen 0%nat)] world0 = Some w
    /\ registrationState (phone w) = UNREGISTERED
    /\ steps reconnected (issue (at_ 2000) CmdRegister w) = Some w''
    /\ registrationState (phone w'') = registrationState (phone w).
Proof.
  eexists. eexists. split; [by_eval |]. split; [by_eval |]. split; [by_eval |].
  match goal with
  | |- registrationState (phone ?w2) = registrationState (phone ?w) =>
      assert (T : websocket (phone w) = Some 0%nat
                  /\ readyState 0%nat (browser w) = Some OPEN
                  /\ validateSIPSettings (getSIPSettings w) = true)
        by (repeat split; by_eval);
      destruct T as (W & R & V);
      destruct (register_sends_and_keeps_state (at_ 2000) 0%nat w W R V)
        as (_ & _ & _ & _ & _ & K & _);
      apply (K reconnected w2); [repeat constructor | by_eval]
  end.
Defined.

Lemma register_leaves_unregistered :
  exists w, steps [(at_ 1000, EvOpen 0%nat)] world0 = Some w
  /\ websocket_open w = true
  /\ validateSIPSettings (getSIPSettings w) = true
  /\ registrationState (phone (issue (at_ 2000) CmdRegister w)) = UNREGISTERED
  /\ registrationState (phone (issue (at_ 2000) CmdRegister w)) <> REGISTERING.
Proof.
  eexists. split; [by_eval |]. split; [by_eval |]. split; [by_eval |].
  split; [by_eval |]. vm_compute. discriminate.
Qed.

(** ** Intervals whose handle was overwritten *)

(** A call is answered, fails, and the next call is answered:
    [handleCallFailed] stops no timer and [startCallTimer] stops none
    before it starts one. *)
Definition answered_failed_answered : list (Env * Op) :=
  [(at_ 1000, EvOpen 0%nat);
   (at_ 2000, EvMessage 0%nat (event "call_answered" []));
   (at_ 3000, EvMessage 0%nat (event "call_failed" [("reason", JStr "busy")]));
   (at_ 4000, EvMessage 0%nat (event "call_answered" []))].

(** C6.  [hangupCall] in state ACTIVE does not always stop the call timer.
    After a call was answered, failed and the next call was answered, two
    tick intervals run and [callTimer] names the second.  [hangupCall]
    leaves the call state IDLE with [callTimer] cleared, but the first
    interval is still scheduled: its next tick writes a duration into the
    page although no call is up.  The same holds after a [call_answered]
    message that arrives twice. *)
Theorem hangup_leaves_a_tick_running :
  (exists w0 w w',
     steps answered_failed_answered world0 = Some w0
     /\ callState (phone w0) = ACTIVE
     /\ step (at_ 5000) (Issue CmdHangupCall) w0 = Some w
     /\ callState (phone w) = IDLE
     /\ callTimer (phone w) = None
     /\ callDuration (dom w) = ""
     /\ timers (browser w) = [(0%nat, CallTick)]
     /\ step (at_ 15000) (EvTimer 0%nat) w = Some w'
     /\ callState (phone w') = IDLE
     /\ callDuration (dom w') = "00:11")
  /\ (exists w0 w,
        steps (talking ++ [(at_ 2001, EvMessage 0%nat (event "call_answered" []))]) world0
        = Some w0
        /\ callState (phone w0) = ACTIVE
        /\ step (at_ 5000) (Issue CmdHangupCall) w0 = Some w
        /\ callState (phone w) = IDLE
        /\ timers (browser w) = [(0%nat, CallTick)]).
Proof.
  split.
  - do 3 eexists. split; [by_eval |]. split; [by_eval |]. split; [by_eval |].
    split; [by_eval |]. split; [by_eval |]. split; [by_eval |]. split; [by_eval |].
    split; [by_eval |]. split; by_eval.
  - do 2 eexists. split; [by_eval |]. split; [by_eval |]. split; [by_eval |].
    split; by_eval.
Qed.

(** An incoming call rings, and the snapshot that the gateway sends while
    it rings plays the ringtone again. *)
Definition ringing_then_snapshot : list (Env * Op) :=
  ringing
  ++ [(at_ 2500, EvMessage 0%nat
                   (event "status_update"
                      [("sip_registered", JBool true); ("active_call", JBool false);
                       ("has_incoming", JBool true); ("caller_number", JStr "1003")]))].

(** C9.  A [call_ended] event does not always stop the ringtone, and it
    does not clear the caller the phone stores.  After an incoming call
    and a snapshot that reports it, two ringtone intervals run and
    [ringtoneInterval] names the second: [call_ended] leaves the call state
    IDLE with the handle cleared and the first interval still scheduled.
    After an incoming call from 1003 has ended, [currentCaller] is still
    1003 in state IDLE, and when the user then dials 1002 and the call is
    answered the panel shows 1003. *)
Theorem call_ended_leaves_ringtone_and_caller :
  (exists w0 w,
     steps ringing_then_snapshot world0 = Some w0
     /\ callState (phone w0) = INCOMING_RINGING
     /\ step (at_ 3000) (EvMessage 0%nat (event "call_ended" [])) w0 = Some w
     /\ callState (phone w) = IDLE
     /\ ringtoneInterval (phone w) = None
     /\ timers (browser w) = [(0%nat, RingtonePulse)])
  /\ (exists w w',
        steps (ringing ++ [(at_ 3000, EvMessage 0%nat (event "call_ended" []))]) world0
        = Some w
        /\ callState (phone w) = IDLE
        /\ currentCaller (phone w) = JStr "1003"
        /\ steps [(at_ 4000, Issue CmdMakeCall);
                  (at_ 5000, EvMessage 0%nat (event "call_answered" []))] w = Some w'
        /\ In (0%nat, sip_make_call "1002") (sent (browser w'))
        /\ callState (phone w') = ACTIVE
        /\ remoteNumber (dom w') = JStr "1003").
Proof.
  split.
  - do 2 eexists. split; [by_eval |]. split; [by_eval |]. split; [by_eval |].
    split; [by_eval |]. split; by_eval.
  - do 2 eexists. split; [by_eval |]. split; [by_eval |]. split; [by_eval |].
    split; [by_eval |]. split; [vm_compute; auto |]. split; by_eval.
Qed.

(** *** Sockets and reconnects *)

(** A socket that is not closed yet has its [close] event to come. *)
Definition live (st : ReadyState) : bool :=
  match st with CLOSED => false | _ => true end.

Definition is_reconnect (t : nat * TimerKind) : bool :=
  match snd t with ReconnectTimeout => true | _ => false end.

Definition alive (l : list ReadyState) : nat := length (List.filter live l).

Definition pending (l : list (nat * TimerKind)) : nat := length (List.filter is_reconnect l).

Definition live_sockets (w : World) : nat := alive (sockets (browser w)).

Definition pending_reconnects (w : World) : nat := pending (timers (browser w)).

Definition one_connection (w : World) : Prop :=
  (live_sockets w + pending_reconnects w <= 1)%nat.

Lemma alive_snoc l st : alive (l ++ [st]) = (alive l + if live st then 1 else 0)%nat.
Proof.
  unfold alive. rewrite List.filter_app, List.length_app. cbn. now destruct (live st).
Qed.

Lemma alive_insert l s st st' :
  l !! s = Some st ->
  (alive (<[s := st']> l) + (if live st then 1 else 0)
   = alive l + (if live st' then 1 else 0))%nat.
Proof.
  unfold alive. revert s. induction l as [| x r IH]; intros [| s]; simpl; try discriminate.
  - intros [= ->]. destruct (live st), (live st'); simpl; lia.
  - intros H. specialize (IH s H). destruct (live x); simpl; lia.
Qed.

Lemma pending_snoc l n k :
  pending (l ++ [(n, k)])
  = (pending l + match k with ReconnectTimeout => 1 | _ => 0 end)%nat.
Proof.
  unfold pending. rewrite List.filter_app, List.length_app. cbn. now destruct k.
Qed.

Lemma pending_filter f l : (pending (List.filter f l) <= pending l)%nat.
Proof.
  unfold pending. induction l as [| x r IH]; cbn; [lia |].
  destruct (f x); cbn; destruct (is_reconnect x); cbn; lia.
Qed.

Lemma pending_clear_timers h l : (pending (clear_timers h l) <= pending l)%nat.
Proof. destruct h; [apply pending_filter | apply le_n]. Qed.

(** A timeout that fires is no longer pending. *)
Lemma pending_fired id l :
  timer_kind id l = Some ReconnectTimeout ->
  (S (pending (List.filter (fun t => negb (fst t =? id)%nat) l)) <= pending l)%nat.
Proof.
  unfold pending. induction l as [| [i k] r IH]; cbn; [discriminate |].
  destruct (i =? id)%nat eqn:E; cbn.
  - intros [= ->]. cbn.
    pose proof (pending_filter (fun t => negb (fst t =? id)%nat) r) as B.
    unfold pending in B. lia.
  - intros H. specialize (IH H). destruct (is_reconnect (i, k)); cbn; lia.
Qed.

Arguments alive : simpl never.
Arguments pending : simpl never.

(** Count the sockets and the timeouts of a world that is given by what
    was done to the lists. *)
Ltac count :=
  unfold readyState in *;
  rewrite ?pending_snoc, ?alive_snoc;
  repeat match goal with
         | H : ?l !! ?s = Some ?st |- context [alive (<[?s := ?st']> ?l)] =>
             generalize (alive_insert l s st st' H);
             generalize (alive (<[s := st']> l))
         | H : timer_kind ?id ?l = Some ReconnectTimeout
           |- context [pending (List.filter ?f ?l)] =>
             generalize (pending_fired id l H);
             generalize (pending (List.filter f l))
         | |- context [pending (clear_timers ?h ?l)] =>
             generalize (pending_clear_timers h l);
             generalize (pending (clear_timers h l))
         | |- context [pending (List.filter ?f ?l)] =>
             generalize (pending_filter f l);
             generalize (pending (List.filter f l))
         end;
  cbn; intros; lia.

Lemma step_keeps_one_connection e o w w' :
  step e o w = Some w' -> one_connection w -> one_connection w'.
Proof.
  revert e o w w'.
  step_cases; unfold one_connection, live_sockets, pending_reconnects; step_guard.
  all: evaluate; try (by_type; evaluate).
  all: count.
Qed.

(** *** The handles the phone keeps

    [callTimer] and [ringtoneInterval] hold ids that [setInterval] gave
    out; the id of a reconnect timeout is kept nowhere.  The browser gives
    each id once, so a handle of the phone never names a reconnect
    timeout. *)

Definition fresh_handle (h : option nat) (l : list (nat * TimerKind)) (n : nat) : Prop :=
  forall id, h = Some id -> (id < n)%nat /\ ~ In (id, ReconnectTimeout) l.

Definition fresh (l : list (nat * TimerKind)) (n : nat) (c r : option nat) : Prop :=
  (forall id k, In (id, k) l -> (id < n)%nat)
  /\ fresh_handle c l n
  /\ fresh_handle r l n.














Lemma new_SIPPhone_one_connection e page settings logs :
  one_connection (new_SIPPhone e page settings logs).
Proof.
  unfold new_SIPPhone, one_connection, live_sockets, pending_reconnects.
  evaluate; unfold alive, pending; cbn; lia.
Qed.


(** *** What [destroy] leaves scheduled *)










(** [destroy] on an open socket: the [close] event that follows schedules
    a reconnect. *)
Lemma destroy_then_close_schedules_reconnect :
  exists w,
    steps [(at_ 1000, EvOpen 0%nat); (at_ 2000, Unload); (at_ 2100, EvClose 0%nat)] world0
    = Some w
    /\ pending_reconnects w = 1%nat
    /\ timer_kind 0%nat (timers (browser w)) = Some ReconnectTimeout.
Proof. eexists. split; [by_eval |]. split; by_eval. Qed.

(** * Further properties of the methods *)

(** ** The log *)

(** A store that refuses every write. *)
Definition full_store_at (t : Z) : Env :=
  {| now := t; websocket_ok := true; audio_ok := true;
     settings_quota_ok := false; logs_quota_ok := false |}.

Lemma saveLogToStorage_logs e x b :
  logs_quota_ok e = true ->
  sip_phone_logs (saveLogToStorage e x b)
  = if (1000 <? length (sip_phone_logs b ++ [x]))%nat
    then skipn (length (sip_phone_logs b ++ [x]) - 500) (sip_phone_logs b ++ [x])
    else sip_phone_logs b ++ [x].
Proof. intros Q. unfold saveLogToStorage. rewrite Q. reflexivity. Qed.

(** X1.  [saveLogToStorage] keeps the stored log short.  While fewer than
    1000 entries are stored the new entry is appended.  With 1000 or more
    stored, the list is cut to its last 500 entries, the new entry
    included: the cut is to 500, not to the 1000 that the test reads.  The
    new entry is always the last one, and a store that held at most 1000
    entries holds at most 1000 afterwards. *)
Theorem stored_logs_are_capped e x b :
  logs_quota_ok e = true ->
  let old := sip_phone_logs b in
  let new := sip_phone_logs (saveLogToStorage e x b) in
  ((length old < 1000)%nat -> new = old ++ [x])
  /\ ((1000 <= length old)%nat ->
      new = skipn (length old - 499) (old ++ [x]) /\ length new = 500%nat)
  /\ ((length old <= 1000)%nat -> (length new <= 1000)%nat)
  /\ last new = Some x.
Proof.
  intros Q. cbv zeta. rewrite (saveLogToStorage_logs e x b Q).
  set (old := sip_phone_logs b).
  assert (L : length (old ++ [x]) = S (length old)).
  { rewrite List.length_app. cbn [length]. lia. }
  assert (Hskip : forall k, (k <= length old)%nat ->
                            skipn k (old ++ [x]) = skipn k old ++ [x]).
  { intros k Hk. rewrite List.skipn_app.
    replace (k - length old)%nat with 0%nat by lia. reflexivity. }
  rewrite L. destruct (1000 <? S (length old))%nat eqn:E.
  - apply Nat.ltb_lt in E.
    replace (S (length old) - 500)%nat with (length old - 499)%nat by lia.
    assert (N : length (skipn (length old - 499) (old ++ [x])) = 500%nat).
    { rewrite List.length_skipn, L. lia. }
    split; [lia |]. split; [auto |]. split; [lia |].
    rewrite Hskip by lia. apply last_snoc.
  - apply Nat.ltb_ge in E.
    split; [reflexivity |]. split; [lia |]. split; [lia |].
    apply last_snoc.
Qed.

Lemma stored_logs_are_capped_witness :
  last (sip_phone_logs
          (saveLogToStorage (at_ 5) (mkLogEntry 5 MsgStopped info) (browser world0)))
  = Some (mkLogEntry 5 MsgStopped info).
Proof.
  apply (stored_logs_are_capped (at_ 5) (mkLogEntry 5 MsgStopped info) (browser world0)).
  reflexivity.
Defined.

(** X2.  [log] adds exactly one entry to the page, with the time of the
    call, whether or not the store takes it, and leaves the phone, the
    sockets, the frames sent, the timers and the saved settings alone.  If
    the store refuses the write, the stored log is unchanged and the
    failure goes to the console: [log] never throws. *)
Theorem log_adds_one_entry e m lv w :
  let w' := log e m lv w in
  logContainer (dom w') = logContainer (dom w) ++ [mkLogEntry (now e) m lv]
  /\ phone w' = phone w
  /\ sockets (browser w') = sockets (browser w)
  /\ sent (browser w') = sent (browser w)
  /\ timers (browser w') = timers (browser w)
  /\ sip_settings (browser w') = sip_settings (browser w)
  /\ (logs_quota_ok e = false ->
      sip_phone_logs (browser w') = sip_phone_logs (browser w)
      /\ console (browser w')
         = console (browser w) ++ [ConsoleLogSaveFailed QuotaExceededError]).
Proof.
  parts w. cbv zeta. reduce. repeat split.
  all: unfold saveLogToStorage; rewrite H; reflexivity.
Qed.

Lemma log_adds_one_entry_witness :
  console (browser (log (full_store_at 5) MsgStopped info world0))
  = console (browser world0) ++ [ConsoleLogSaveFailed QuotaExceededError].
Proof.
  apply (log_adds_one_entry (full_store_at 5) MsgStopped info world0).
  reflexivity.
Defined.

(** ** The dispatcher *)

(** The messages that reach one of the eight handlers. *)
Definition handled (m : RawMessage) : bool :=
  match m with
  | Parsed (JObj l) =>
      match event_type (assoc "type" l) with
      | ev_default | ev_success | ev_error => false
      | _ => true
      end
  | _ => false
  end.

(** X3.  A message that reaches no handler changes nothing but the log:
    text that is not JSON, JSON that is no object, an object of an unknown
    type and the [success] and [error] notices, with or without a payload,
    leave the phone, the frames sent and the timers as they are, and each
    adds at least one entry to the page log. *)
Theorem unhandled_message_only_logs e m w :
  handled m = false ->
  let w' := handleWebSocketMessage e m w in
  phone w' = phone w
  /\ sent (browser w') = sent (browser w)
  /\ timers (browser w') = timers (browser w)
  /\ sockets (browser w') = sockets (browser w)
  /\ exists es, es <> [] /\ new_entries w w' es.
Proof.
  unfold new_entries. parts w. destruct m as [| [| | | | | | l]]; cbv zeta; intros U.
  all: cbn in U; reduce; try by_type; try discriminate U.
  all: evaluate.
  all: repeat split.
  all: eexists; (split; [| rewrite <- ?app_assoc; reflexivity]); discriminate.
Qed.

Lemma unhandled_message_only_logs_witness :
  phone (handleWebSocketMessage (at_ 5) (event "hello" []) world0) = phone world0.
Proof.
  apply (unhandled_message_only_logs (at_ 5) (event "hello" []) world0).
  reflexivity.
Defined.

(** ** Settings *)

(** X4.  The port never stops a registration.  [getSIPSettings] replaces a
    port that does not parse, or parses to 0, by 5060, so the port it
    returns is never 0 and [validateSIPSettings] comes down to the four
    text fields being non-empty once trimmed. *)
Theorem settings_port_is_never_missing w :
  sip_port (getSIPSettings w) <> 0
  /\ validateSIPSettings (getSIPSettings w)
     = nonempty (trim (sipServer_value (dom w)))
       && nonempty (trim (sipLogin_value (dom w)))
       && nonempty (trim (sipPassword_value (dom w)))
       && nonempty (trim (sipNumber_value (dom w))).
Proof.
  assert (P : sip_port (getSIPSettings w) <> 0).
  { unfold getSIPSettings. cbn.
    destruct (parseInt (sipPort_value (dom w))) as [n |]; [| discriminate].
    destruct (n =? 0) eqn:E; [discriminate |]. now apply Z.eqb_neq. }
  split; [exact P |].
  unfold validateSIPSettings. apply Z.eqb_neq in P. rewrite P.
  unfold getSIPSettings. cbn. now rewrite andb_true_r.
Qed.

(** ** Commands that test something first *)

(** X5.  A command whose own test fails sends nothing, whatever the state
    of the socket: [registerSIP] with a setting missing, [makeCall] with
    no number, [sendDTMF] outside a call and [sendMessage] while not
    registered each add one warning to the log and change nothing else of
    the phone, the frames sent or the timers. *)
Theorem failed_test_sends_nothing e c w :
  reaches_send c w = false ->
  let w' := issue e c w in
  sent (browser w') = sent (browser w)
  /\ phone w' = phone w
  /\ timers (browser w') = timers (browser w)
  /\ exists m, new_entries w w' [mkLogEntry (now e) m warning].
Proof.
  unfold reaches_send, new_entries. parts w. destruct c; cbv zeta.
  all: try discriminate.
  all: rewrite ?getSIPSettings_eq; cbn; intros G; reduce; rewrite ?G; reduce.
  all: repeat split; eexists; reflexivity.
Qed.

Lemma failed_test_sends_nothing_witness :
  sent (browser (issue (at_ 5) (CmdSendDTMF (JStr "1")) world0)) = sent (browser world0).
Proof.
  apply (failed_test_sends_nothing (at_ 5) (CmdSendDTMF (JStr "1")) world0).
  reflexivity.
Defined.

(** The phone is registered and the socket has closed. *)
Definition registered_offline : list (Env * Op) :=
  [(at_ 1000, EvOpen 0%nat);
   (at_ 2000, EvMessage 0%nat (event "sip_registered" []));
   (at_ 3000, EvClose 0%nat)].

(** X6.  [sendMessage] returns whether the phone is registered, not whether
    the message went out: while registered it returns [true] also when
    the socket is not open and nothing is sent. *)
Theorem sendMessage_reports_registration e t c w :
  snd (sendMessage e t c w) = truthy (isRegistered (phone w))
  /\ (websocket_open w = false ->
      sent (browser (fst (sendMessage e t c w))) = sent (browser w)).
Proof.
  unfold websocket_open. parts w. unfold sendMessage. cbn.
  destruct (truthy (isRegistered p)); cbn; (split; [reflexivity |]).
  all: evaluate; intros; try discriminate; reflexivity.
Qed.

Lemma sendMessage_reports_registration_witness :
  exists w, steps registered_offline world0 = Some w
  /\ snd (sendMessage (at_ 4000) (JStr "1003") (JStr "hello") w) = true
  /\ sent (browser (fst (sendMessage (at_ 4000) (JStr "1003") (JStr "hello") w)))
     = sent (browser w).
Proof.
  eexists. split; [by_eval |]. split; [by_eval |].
  match goal with
  | |- sent (browser (fst (sendMessage ?e ?t ?c ?w))) = _ =>
      apply (sendMessage_reports_registration e t c w); by_eval
  end.
Defined.

(** ** Dialling *)

(** X7.  [makeCall] with a number shows the outgoing call at once and
    leaves the phone as it is: the call state does not change (the code
    has no state for a call being set up).  The panel shows the trimmed
    number and "connecting", the hang-up button is enabled and the answer
    button disabled.  On an open socket one [sip_make_call] frame with the
    trimmed number is sent; without one nothing is sent, and the panel is
    shown all the same. *)
Theorem makeCall_shows_the_call e w :
  nonempty (trim (phoneNumber_value (dom w))) = true ->
  let number := trim (phoneNumber_value (dom w)) in
  let w' := makeCall e w in
  phone w' = phone w
  /\ callState (phone w') = callState (phone w)
  /\ remoteNumber (dom w') = JStr number
  /\ callStatus (dom w') = TextConnecting
  /\ callInfo_display (dom w') = true
  /\ hangupBtn_disabled (dom w') = false
  /\ answerBtn_disabled (dom w') = true
  /\ (forall s, websocket (phone w) = Some s ->
                readyState s (browser w) = Some OPEN ->
                sent (browser w') = sent (browser w) ++ [(s, sip_make_call number)])
  /\ (websocket_open w = false -> sent (browser w') = sent (browser w)).
Proof.
  unfold websocket_open. parts w. cbn. intros N. cbv zeta.
  repeat match goal with |- _ /\ _ => split end.
  1-2: reduce; reflexivity.
  1-5: reduce; rewrite N; evaluate; reflexivity.
  - intros s W R. reduce. rewrite N. reduce. rewrite W. reduce. rewrite R. reduce.
    reflexivity.
  - reduce. rewrite N. evaluate; intros; try discriminate; reflexivity.
Qed.

Lemma makeCall_shows_the_call_witness :
  remoteNumber (dom (makeCall (at_ 5) world0)) = JStr "1002"
  /\ sent (browser (makeCall (at_ 5) world0)) = sent (browser world0).
Proof.
  assert (N : nonempty (trim (phoneNumber_value (dom world0))) = true) by by_eval.
  pose proof (makeCall_shows_the_call (at_ 5) world0 N) as T.
  split; [apply T |]. apply T. by_eval.
Defined.

(** ** Answered calls and their timer *)



(** X9.  [startCallTimer] does not stop a timer that is running.  A
    [call_answered] event that arrives while a call timer runs overwrites
    the handle: the old interval stays scheduled, no field names it any
    more, and the [call_ended] event that follows clears only the new
    one. *)
Theorem second_call_answered_leaks_the_timer e e' data data' id w :
  has_type data "call_answered" ->
  has_type data' "call_ended" ->
  callTimer (phone w) = Some id ->
  timer_kind id (timers (browser w)) = Some CallTick ->
  (id < next_timer (browser w))%nat ->
  ringtoneInterval (phone w) <> Some id ->
  let w1 := handleWebSocketMessage e (Parsed data) w in
  let w2 := handleWebSocketMessage e' (Parsed data') w1 in
  timer_kind id (timers (browser w1)) = Some CallTick
  /\ callTimer (phone w1) <> Some id
  /\ ringtoneInterval (phone w1) <> Some id
  /\ callState (phone w2) = IDLE
  /\ callTimer (phone w2) = None
  /\ timer_kind id (timers (browser w2)) = Some CallTick.
Proof.
  intros H H' C T B R. parts w. cbv zeta. unfold callState.
  on_event H. on_event H'. cbn in C, T, B, R. reduce.
  assert (K : timer_kind id (clear_timers (ringtoneInterval p) (timers b)
                             ++ [(next_timer b, CallTick)]) = Some CallTick).
  { rewrite timer_kind_app, timer_kind_clear_other, T; auto. }
  repeat split; try discriminate; auto.
  - intros [= E]. lia.
  - rewrite timer_kind_filter_other; [exact K | lia].
Qed.

Lemma second_call_answered_leaks_the_timer_witness :
  exists w, steps talking world0 = Some w
  /\ timer_kind 0%nat
       (timers (browser
          (handleWebSocketMessage (at_ 4000) (event "call_ended" [])
             (handleWebSocketMessage (at_ 3000) (event "call_answered" []) w))))
     = Some CallTick.
Proof.
  eexists. split; [by_eval |].
  match goal with
  | |- timer_kind ?id (timers (browser (handleWebSocketMessage ?e' _
                                          (handleWebSocketMessage ?e _ ?w)))) = _ =>
      apply (second_call_answered_leaks_the_timer e e'
               (JObj [("type", JStr "call_answered"); ("payload", JObj [])])
               (JObj [("type", JStr "call_ended"); ("payload", JObj [])]) id w);
      first [by_eval | vm_compute; lia | discriminate]
  end.
Defined.



(** ** The displayed duration *)

Definition digit_char (k : Z) : ascii := ascii_of_nat (48 + Z.to_nat k).

Definition two_digits (n : Z) : string :=
  String (digit_char (n / 10)) (String (digit_char (n mod 10)) "").

Lemma padStart_two_digits n :
  0 <= n < 100 -> padStart 2 "0" (string_of_Z n) = two_digits n.
Proof.
  intros H.
  assert (A : forallb (fun k => String.eqb (padStart 2 "0" (string_of_Z (Z.of_nat k)))
                                           (two_digits (Z.of_nat k)))
                      (seq 0 100) = true) by (vm_compute; reflexivity).
  rewrite List.forallb_forall in A. specialize (A (Z.to_nat n)).
  rewrite Z2Nat.id in A by lia. apply String.eqb_eq, A, List.in_seq. lia.
Qed.

(** X11.  A tick of the call timer shows the time since the call started
    as minutes and seconds, two digits each, for the first hundred minutes
    of a call: the milliseconds are dropped, and nothing but the duration
    text changes. *)
Theorem call_duration_reads_mm_ss e w t0 m s ms :
  callStartTime (phone w) = Some t0 ->
  0 <= m < 100 -> 0 <= s < 60 -> 0 <= ms < 1000 ->
  now e = t0 + 1000 * (60 * m + s) + ms ->
  callDuration (dom (callTick e w)) = (two_digits m ++ ":" ++ two_digits s)%string
  /\ phone (callTick e w) = phone w
  /\ browser (callTick e w) = browser w.
Proof.
  intros C Hm Hs Hms N. parts w. cbn in C. rewrite callTick_eq. cbn.
  split; [| split; reflexivity].
  unfold duration_text. rewrite C, N. cbv zeta.
  replace (t0 + 1000 * (60 * m + s) + ms - t0) with ((60 * m + s) * 1000 + ms) by lia.
  rewrite Z.div_add_l, (Z.div_small ms 1000), Z.add_0_r by lia.
  replace (60 * m + s) with (m * 60 + s) by lia.
  rewrite Z.div_add_l, (Z.div_small s 60), Z.add_0_r by lia.
  rewrite Z.rem_mod_nonneg by lia.
  rewrite Z.add_comm, Z.mod_add, (Z.mod_small s 60) by lia.
  now rewrite !padStart_two_digits by lia.
Qed.

Lemma call_duration_reads_mm_ss_witness :
  exists w, steps talking world0 = Some w
  /\ callDuration (dom (callTick (at_ 67900) w)) = "01:05".
Proof.
  eexists. split; [by_eval |].
  match goal with
  | |- callDuration (dom (callTick ?e ?w)) = _ =>
      apply (call_duration_reads_mm_ss e w 2000 1 5 900);
      first [by_eval | lia]
  end.
Defined.

(** ** Registration events *)

(** X12.  A [sip_registered] event registers the phone even when the
    settings cannot be saved.  If the store refuses the write,
    [saveSettings] throws after the flag is set and the status line is
    updated: the dispatcher logs the failure, nothing is written and no
    "settings saved" entry appears, and the phone stays registered. *)
Theorem sip_registered_with_full_store e data w :
  has_type data "sip_registered" ->
  settings_quota_ok e = false ->
  let w' := handleWebSocketMessage e (Parsed data) w in
  isRegistered (phone w') = JBool true
  /\ sipStatus (dom w') = true
  /\ sip_settings (browser w') = sip_settings (browser w)
  /\ new_entries w w'
       [mkLogEntry (now e) (MsgReceived (JStr "sip_registered")) debug;
        mkLogEntry (now e) MsgRegistered info;
        mkLogEntry (now e) (MsgHandlingFailed QuotaExceededError) error].
Proof.
  intros H Q. parts w. cbv zeta. unfold new_entries.
  on_event H. reduce. rewrite Q. reduce.
  repeat split. rewrite <- !app_assoc. reflexivity.
Qed.

Lemma sip_registered_with_full_store_witness :
  isRegistered
    (phone (handleWebSocketMessage (full_store_at 5) (event "sip_registered" []) world0))
  = JBool true.
Proof.
  apply (sip_registered_with_full_store (full_store_at 5)
           (JObj [("type", JStr "sip_registered"); ("payload", JObj [])]) world0);
    reflexivity.
Defined.

(** X13.  A [sip_registered] event enables the dial button whatever the
    call state.  [handleSIPRegistered] calls [updateSIPStatus] and not
    [updateCallControls]: during a call the dial button becomes enabled,
    while the call state and the number field stay as they were. *)
Theorem sip_registered_enables_dialling e data w :
  has_type data "sip_registered" ->
  let w' := handleWebSocketMessage e (Parsed data) w in
  isRegistered (phone w') = JBool true
  /\ dialBtn_disabled (dom w') = false
  /\ registerBtn_disabled (dom w') = true
  /\ unregisterBtn_disabled (dom w') = false
  /\ callState (phone w') = callState (phone w)
  /\ phoneNumber_disabled (dom w') = phoneNumber_disabled (dom w)
  /\ hangupBtn_disabled (dom w') = hangupBtn_disabled (dom w).
Proof.
  intros H. parts w. cbv zeta. unfold callState.
  on_event H. evaluate; repeat split.
Qed.

Lemma sip_registered_enables_dialling_witness :
  exists w, steps talking world0 = Some w
  /\ callState (phone w) = ACTIVE
  /\ dialBtn_disabled (dom w) = true
  /\ dialBtn_disabled
       (dom (handleWebSocketMessage (at_ 3000) (event "sip_registered" []) w)) = false.
Proof.
  eexists. split; [by_eval |]. split; [by_eval |]. split; [by_eval |].
  match goal with
  | |- dialBtn_disabled (dom (handleWebSocketMessage ?e _ ?w)) = _ =>
      apply (sip_registered_enables_dialling e
               (JObj [("type", JStr "sip_registered"); ("payload", JObj [])]) w);
      by_eval
  end.
Defined.

(** X14.  After a [status_update] the buttons follow the snapshot alone:
    the answer button is enabled exactly while a call is coming in, the
    hang-up button exactly while the state is not IDLE, the dial button
    and the number field exactly while the phone is IDLE and registered,
    and of the register and unregister buttons the one that applies. *)
Theorem status_update_sets_the_controls e data fields w :
  has_type data "status_update" ->
  get_prop data "payload" = Ok (JObj fields) ->
  let w' := handleWebSocketMessage e (Parsed data) w in
  let registered := truthy (isRegistered (phone w')) in
  answerBtn_disabled (dom w')
  = match callState (phone w') with INCOMING_RINGING => false | _ => true end
  /\ hangupBtn_disabled (dom w')
     = match callState (phone w') with IDLE => true | _ => false end
  /\ dialBtn_disabled (dom w')
     = match callState (phone w') with IDLE => negb registered | _ => true end
  /\ phoneNumber_disabled (dom w')
     = match callState (phone w') with IDLE => negb registered | _ => true end
  /\ registerBtn_disabled (dom w') = registered
  /\ unregisterBtn_disabled (dom w') = negb registered.
Proof.
  intros H P. parts w. cbv zeta. unfold callState.
  on_event H. rewrite get_prop_object in P. injection P as ->.
  evaluate; use_tests; cbn; repeat split.
Qed.

Lemma status_update_sets_the_controls_witness :
  answerBtn_disabled (dom (handleWebSocketMessage (at_ 5) dial_then_snapshot world0))
  = true.
Proof.
  apply (status_update_sets_the_controls (at_ 5)
           (JObj [("type", JStr "status_update");
                  ("payload", JObj [("sip_registered", JBool true);
                                    ("active_call", JBool false);
                                    ("has_incoming", JBool false);
                                    ("caller_number", JStr "")])])
           [("sip_registered", JBool true); ("active_call", JBool false);
            ("has_incoming", JBool false); ("caller_number", JStr "")] world0);
    reflexivity.
Defined.

(** ** The connection *)

(** A browser that refuses to create a socket. *)
Definition no_socket_at (t : Z) : Env :=
  {| now := t; websocket_ok := false; audio_ok := true;
     settings_quota_ok := true; logs_quota_ok := true |}.

Definition never_connected (w : World) : Prop :=
  sockets (browser w) = []
  /\ websocket (phone w) = None
  /\ pending (timers (browser w)) = 0%nat
  /\ isConnected (phone w) = false
  /\ sent (browser w) = [].

Lemma step_keeps_never_connected e o w w' :
  step e o w = Some w' -> never_connected w -> never_connected w'.
Proof.
  revert e o w w'. step_cases; unfold never_connected; step_guard.
  all: cbn; intros (S & W & P & C & T).
  all: try (unfold readyState in *; rewrite S in *; discriminate).
  all: try match goal with
           | H : timer_kind ?id ?l = Some ReconnectTimeout |- _ =>
               pose proof (pending_fired id l H); lia
           end.
  all: evaluate; try (by_type; evaluate).
  all: repeat match goal with |- _ /\ _ => split end; try assumption; try reflexivity.
  all: count.
Qed.

(** X15.  A socket that cannot be created is never tried again.  When
    [new WebSocket] throws in the constructor, [connectWebSocket] logs the
    error and schedules nothing: over every run that follows there is no
    socket and no reconnect pending, the phone is not connected and no
    frame is ever sent. *)
Theorem failed_connect_is_never_retried e0 page settings logs tr w :
  websocket_ok e0 = false ->
  steps tr (new_SIPPhone e0 page settings logs) = Some w ->
  sockets (browser w) = []
  /\ websocket (phone w) = None
  /\ pending_reconnects w = 0%nat
  /\ isConnected (phone w) = false
  /\ sent (browser w) = [].
Proof.
  intros F Hrun.
  apply (steps_preserve_all never_connected) with (2 := Hrun).
  - intros e o. apply step_keeps_never_connected.
  - unfold never_connected, new_SIPPhone. reduce. rewrite F. reduce.
    repeat split.
Qed.

Lemma failed_connect_is_never_retried_witness :
  exists w,
    steps [(at_ 1000, Issue CmdRegister); (at_ 2000, Issue CmdRequestStatus)]
          (new_SIPPhone (no_socket_at 0) page0 [] []) = Some w
    /\ sent (browser w) = [].
Proof.
  eexists. split; [by_eval |].
  match goal with
  | |- sent (browser ?w) = _ =>
      apply (failed_connect_is_never_retried (no_socket_at 0) page0 [] []
               [(at_ 1000, Issue CmdRegister); (at_ 2000, Issue CmdRequestStatus)] w);
      by_eval
  end.
Defined.

(** X16.  When a socket closes, the phone shows "disconnected" and
    schedules one reconnect under the id the browser gives next.  Nothing
    else of the phone changes: the socket handle, the registration flag
    and the call flags are kept, so a call stays ACTIVE and the phone
    stays REGISTERED across the loss of the connection, and no frame is
    sent. *)
Theorem socket_close_schedules_a_reconnect e s w w' :
  step e (EvClose s) w = Some w' ->
  isConnected (phone w') = false
  /\ connectionStatus (dom w') = false
  /\ timers (browser w')
     = timers (browser w) ++ [(next_timer (browser w), ReconnectTimeout)]
  /\ websocket (phone w') = websocket (phone w)
  /\ isRegistered (phone w') = isRegistered (phone w)
  /\ callState (phone w') = callState (phone w)
  /\ callTimer (phone w') = callTimer (phone w)
  /\ sent (browser w') = sent (browser w)
  /\ new_entries w w' [mkLogEntry (now e) MsgWsClosed warning].
Proof.
  revert w'. parts w. intros w'. cbn [step browser]. unfold callState, new_entries.
  step_guard. all: reduce; repeat split.
Qed.

Lemma socket_close_schedules_a_reconnect_witness :
  exists w w',
    steps talking world0 = Some w
    /\ step (at_ 3000) (EvClose 0%nat) w = Some w'
    /\ callState (phone w') = callState (phone w).
Proof.
  do 2 eexists. split; [by_eval |].
  match goal with
  | |- step ?e ?o ?w = Some ?w' /\ _ =>
      assert (S : step e o w = Some w') by by_eval;
      split; [exact S |];
      apply (socket_close_schedules_a_reconnect e 0%nat w w' S)
  end.
Defined.

(** ** Leaving the page *)

(** X17.  [destroy] hangs nothing up.  It sends no frame and keeps the
    call flags, the registration flag and the socket handle: a call that
    is up when the page goes away is not ended by the client.  It clears
    the two interval handles and the displayed duration, leaves the call
    panel as it is and logs that the phone stopped. *)
Theorem destroy_hangs_up_nothing e w :
  let w' := destroy e w in
  sent (browser w') = sent (browser w)
  /\ isInCall (phone w') = isInCall (phone w)
  /\ hasIncomingCall (phone w') = hasIncomingCall (phone w)
  /\ isRegistered (phone w') = isRegistered (phone w)
  /\ isConnected (phone w') = isConnected (phone w)
  /\ websocket (phone w') = websocket (phone w)
  /\ callTimer (phone w') = None
  /\ ringtoneInterval (phone w') = None
  /\ callDuration (dom w') = ""
  /\ callInfo_display (dom w') = callInfo_display (dom w)
  /\ new_entries w w' [mkLogEntry (now e) MsgStopped info].
Proof.
  parts w. cbv zeta. unfold new_entries. evaluate; repeat split; assumption.
Qed.

(** ** What only grows *)








(** ** The socket the phone holds *)

Definition holds_live_sockets (w : World) : Prop :=
  forall s st,
    sockets (browser w) !! s = Some st -> live st = true ->
    websocket (phone w) = Some s.

Lemma holds_after_insert (l : list ReadyState) s x (ws : option nat) :
  (forall s' st, l !! s' = Some st -> live st = true -> ws = Some s') ->
  (live x = true -> ws = Some s) ->
  forall s' st, <[s := x]> l !! s' = Some st -> live st = true -> ws = Some s'.
Proof.
  intros H X s' st. destruct (decide (s = s')) as [<- | N].
  - destruct (decide (s < length l)%nat) as [L | L].
    + rewrite list_lookup_insert_eq by exact L. intros [= <-]. exact X.
    + rewrite list_insert_ge by lia. apply H.
  - rewrite list_lookup_insert_ne by exact N. apply H.
Qed.

Lemma alive_zero (l : list ReadyState) s st :
  alive l = 0%nat -> l !! s = Some st -> live st = false.
Proof.
  unfold alive. revert s. induction l as [| x r IH]; intros [| s]; simpl; try discriminate.
  - intros A [= <-]. destruct (live x); [discriminate | reflexivity].
  - intros A. apply IH. destruct (live x); [discriminate | exact A].
Qed.

Lemma holds_after_connect (l : list ReadyState) (ws : option nat) :
  alive l = 0%nat ->
  forall s st, (l ++ [CONNECTING]) !! s = Some st -> live st = true ->
               Some (length l) = Some s.
Proof.
  intros A s st. destruct (decide (s < length l)%nat) as [L | L].
  - rewrite lookup_app_l by exact L. intros E V.
    rewrite (alive_zero l s st A E) in V. discriminate.
  - intros E _. apply lookup_lt_Some in E. rewrite length_app in E. cbn in E.
    f_equal. lia.
Qed.

Lemma step_keeps_holds_live_sockets e o w w' :
  step e o w = Some w' ->
  one_connection w -> holds_live_sockets w -> holds_live_sockets w'.
Proof.
  revert e o w w'.
  step_cases; unfold holds_live_sockets, one_connection, live_sockets, pending_reconnects;
    step_guard.
  all: evaluate; try (by_type; evaluate).
  all: repeat match goal with
              | E : websocket ?p = _ |- context [websocket ?p] => rewrite E
              end.
  all: intros O H; try exact H.
  all: unfold readyState in *.
  all: try (apply holds_after_insert; [exact H | try discriminate]).
  all: try (intros _; eapply H; [eassumption | reflexivity]).
  all: try (cbn; auto; fail).
  all: try match goal with
           | T : timer_kind ?id (timers ?b) = Some ReconnectTimeout |- _ =>
               pose proof (pending_fired id (timers b) T);
               apply (holds_after_connect (sockets b) None); cbn in O; lia
           end.
Qed.

Lemma new_SIPPhone_holds_live_sockets e page settings logs :
  holds_live_sockets (new_SIPPhone e page settings logs).
Proof.
  unfold new_SIPPhone, holds_live_sockets. evaluate.
  - intros [| s] st; cbn; [reflexivity | discriminate].
  - intros s st; cbn. discriminate.
Qed.

(** X19.  Every socket that is not closed is the one the phone holds.
    Over every run from the constructor, a socket that is connecting, open
    or closing is [this.websocket]: [connectWebSocket] runs only when no
    other socket is left, so an event of a socket always comes from the
    socket that [sendWebSocketMessage] would write to. *)
Theorem live_socket_is_held e0 page settings logs tr w :
  steps tr (new_SIPPhone e0 page settings logs) = Some w ->
  forall s st,
    sockets (browser w) !! s = Some st -> live st = true ->
    websocket (phone w) = Some s.
Proof.
  intros Hrun.
  assert (K : one_connection w /\ holds_live_sockets w); [| apply K].
  apply (steps_preserve_all (fun x => one_connection x /\ holds_live_sockets x))
    with (2 := Hrun).
  - intros e o w1 w2 Hs [O H]. split.
    + now apply (step_keeps_one_connection e o w1).
    + now apply (step_keeps_holds_live_sockets e o w1).
  - split; [apply new_SIPPhone_one_connection | apply new_SIPPhone_holds_live_sockets].
Qed.

Lemma live_socket_is_held_witness :
  exists w, steps reconnected world0 = Some w /\ websocket (phone w) = Some 1%nat.
Proof.
  eexists. split; [by_eval |].
  match goal with
  | |- websocket (phone ?w) = Some ?s =>
      apply (live_socket_is_held (at_ 0) page0 [] [] reconnected w) with (st := OPEN);
      by_eval
  end.
Defined.

(** ** Frames *)

(** The frame a command sends. *)
Definition frame_of (c : Cmd) (w : World) : Command :=
  match c with
  | CmdRequestStatus => get_status
  | CmdRegister => sip_register (getSIPSettings w)
  | CmdUnregister => sip_unregister
  | CmdMakeCall => sip_make_call (trim (phoneNumber_value (dom w)))
  | CmdAnswerCall => sip_answer_call
  | CmdHangupCall => sip_hangup_call
  | CmdSendDTMF digit => sip_send_dtmf digit
  | CmdSendMessage toNumber content => sip_send_message toNumber content
  end.

(** X20.  On an open socket a command whose own test passes sends exactly
    one frame, to the socket the phone holds, and logs no error: the frame
    carries the settings read from the form for [registerSIP], the trimmed
    number for [makeCall], the digit for [sendDTMF], the number and the
    text for [sendMessage], and nothing for the other four. *)
Theorem command_sends_one_frame e c s w :
  websocket (phone w) = Some s ->
  readyState s (browser w) = Some OPEN ->
  reaches_send c w = true ->
  let w' := issue e c w in
  sent (browser w') = sent (browser w) ++ [(s, frame_of c w)]
  /\ (forall x, In x (logContainer (dom w')) -> level x = error ->
                In x (logContainer (dom w))).
Proof.
  unfold reaches_send. parts w. destruct c; cbv zeta.
  all: rewrite ?getSIPSettings_eq; cbn; intros W R; try intros G.
  all: reduce; rewrite ?G; reduce; rewrite ?W; reduce; rewrite ?R; reduce.
  all: split; [reflexivity |].
  all: intros x I L;
    first [exact I | apply in_app_or in I as [I | [<- | []]]; [exact I | discriminate L]].
Qed.

Lemma command_sends_one_frame_witness :
  exists w, steps [(at_ 1000, EvOpen 0%nat)] world0 = Some w
  /\ sent (browser (issue (at_ 2000) CmdAnswerCall w))
     = sent (browser w) ++ [(0%nat, sip_answer_call)].
Proof.
  eexists. split; [by_eval |].
  match goal with
  | |- sent (browser (issue ?e ?c ?w)) = _ =>
      apply (command_sends_one_frame e c 0%nat w); by_eval
  end.
Defined.

(** X21.  When a socket opens, the phone shows "connected" and, if the
    socket is the one it holds, asks the gateway for its status with one
    [get_status] frame.  The registration flag and the call flags are
    those from before the connection: they change only when the answer
    arrives. *)
Theorem socket_open_requests_status e s w w' :
  step e (EvOpen s) w = Some w' ->
  isConnected (phone w') = true
  /\ connectionStatus (dom w') = true
  /\ isRegistered (phone w') = isRegistered (phone w)
  /\ callState (phone w') = callState (phone w)
  /\ (websocket (phone w) = Some s ->
      sent (browser w') = sent (browser w) ++ [(s, get_status)]).
Proof.
  revert w'. parts w. intros w'. cbn [step browser]. unfold callState.
  step_guard. unfold readyState in *.
  assert (L : <[s := OPEN]> (sockets b) !! s = Some OPEN).
  { apply list_lookup_insert_eq. now apply lookup_lt_Some in Heqo. }
  repeat match goal with |- _ /\ _ => split end.
  1-4: evaluate; reflexivity.
  cbn. intros W. reduce. rewrite W. reduce.
  unfold readyState. rewrite saveLogToStorage_sockets. cbn. rewrite L.
  reduce. reflexivity.
Qed.

Lemma socket_open_requests_status_witness :
  exists w', step (at_ 1000) (EvOpen 0%nat) world0 = Some w'
  /\ sent (browser w') = sent (browser world0) ++ [(0%nat, get_status)].
Proof.
  eexists.
  match goal with
  | |- step ?e ?o ?w = Some ?w' /\ _ =>
      assert (S : step e o w = Some w') by by_eval;
      split; [exact S |];
      apply (socket_open_requests_status e 0%nat w w' S); by_eval
  end.
Defined.

(** ** Incoming calls *)



